(** * EcoRecommendPro: the recommendation engine, embedded and verified

    The repository carries two copies of [RecommendationEngine]:
    - [server/recommendation_service.py], the stand-alone engine that reads a
      JSON envelope from stdin (module [Service] below);
    - [server/recommendations.py], the storage-backed engine
      (module [Storage] below).

    Product dictionaries become records whose fields are [option]s: a key
    that is absent from the dictionary is [None].  [d.get(k, default)] is
    [dict_get], which never fails; [d[k]] is [dict_index], which raises
    [KeyError].  Python numbers are modelled by exact rationals [Q] (the
    rounding of binary floating point is not modelled, nor the
    [OverflowError] of [float()] on an integer beyond the float range, so
    the only exception below is [KeyError]), integers by [Z], [str] by
    [string] restricted to ASCII. *)

From Stdlib Require Import Ascii String QArith Qminmax Lqa Sorting.Sorted.
From stdpp Require Import gmap strings list fin_maps sorting.

Local Open Scope Q_scope.

(** ** Exceptions *)

Inductive exception : Type :=
  | KeyError (key : string).

Inductive exn (A : Type) : Type :=
  | Return (a : A)
  | Raise (e : exception).
Arguments Return {A} a.
Arguments Raise {A} e.

Definition bind {A B} (m : exn A) (k : A -> exn B) : exn B :=
  match m with
  | Return a => k a
  | Raise e => Raise e
  end.

Notation "'try!' x ':=' m 'in' k" := (bind m (fun x => k))
  (at level 10, x name, m at level 100, k at level 200).

(** [d[k]]: the value, or [KeyError]. *)
Definition dict_index {A} (key : string) (field : option A) : exn A :=
  match field with
  | Some v => Return v
  | None => Raise (KeyError key)
  end.

(** [d.get(k, dflt)]. *)
Definition dict_get {A} (field : option A) (dflt : A) : A :=
  match field with
  | Some v => v
  | None => dflt
  end.

(** ** Python built-ins on strings *)

Module Py.

Definition is_upper (c : ascii) : bool :=
  let n := nat_of_ascii c in (65 <=? n)%nat && (n <=? 90)%nat.

Definition lower_char (c : ascii) : ascii :=
  if is_upper c then ascii_of_nat (nat_of_ascii c + 32) else c.

(** [s.lower()] *)
Fixpoint lower (s : string) : string :=
  match s with
  | EmptyString => EmptyString
  | String c s' => String (lower_char c) (lower s')
  end.

(** [sub in s] *)
Fixpoint contains (sub s : string) : bool :=
  String.prefix sub s ||
  match s with
  | EmptyString => false
  | String _ s' => contains sub s'
  end.

(** The ASCII characters [str.split()] treats as separators. *)
Definition is_space (c : ascii) : bool :=
  let n := nat_of_ascii c in
  ((9 <=? n)%nat && (n <=? 13)%nat) || ((28 <=? n)%nat && (n <=? 32)%nat).

(** [s.split()]: maximal runs of non-blank characters. *)
Fixpoint split (s : string) : list string :=
  match s with
  | EmptyString => []
  | String c s' =>
      if is_space c then split s'
      else match s' with
           | EmptyString => [String c EmptyString]
           | String c' _ =>
               if is_space c' then String c EmptyString :: split s'
               else match split s' with
                    | w :: ws => String c w :: ws
                    | [] => [String c EmptyString]
                    end
           end
  end.

(** [any(f(k) for k in ks)] *)
Definition any {A} (f : A -> bool) (ks : list A) : bool := existsb f ks.

(** Comparisons of numbers. *)
Definition lt (x y : Q) : bool := negb (Qle_bool y x).
Definition le (x y : Q) : bool := Qle_bool x y.
Definition eq (x y : Q) : bool := Qeq_bool x y.

(** [max(0, x)]: the first argument is kept unless the second is greater. *)
Definition max0 (x : Q) : Q := if lt 0 x then x else 0.

(** [min(xs)] and [max(xs)] of a non-empty list: the first extremal item. *)
Definition min_from (x : Q) (xs : list Q) : Q :=
  foldl (fun m y => if lt y m then y else m) x xs.
Definition max_from (x : Q) (xs : list Q) : Q :=
  foldl (fun m y => if lt m y then y else m) x xs.

(** [sum(xs)] *)
Definition sum (xs : list Q) : Q := foldl Qplus 0 xs.

(** [l[:n]] *)
Definition slice_to {A} (n : Z) (l : list A) : list A :=
  if (0 <=? n)%Z then take (Z.to_nat n) l
  else take (length l - Z.to_nat (- n)) l.

(** [l.sort(key=..., reverse=True)]: the sort is stable, so an item moves
    behind another only when its key is strictly smaller. *)
Section Sort.
Context {A : Type} (key_lt : A -> A -> bool).

Fixpoint insert_desc (x : A) (l : list A) : list A :=
  match l with
  | [] => [x]
  | y :: l' => if key_lt x y then y :: insert_desc x l' else x :: l
  end.

Definition sort_reverse (l : list A) : list A := foldr insert_desc [] l.

End Sort.

End Py.

(** [x[0], x[1]] compared as Python compares tuples: the first components
    that differ decide. *)
Definition tuple_lt (a b : Q * Q) : bool :=
  if Py.eq (fst a) (fst b) then Py.lt (snd a) (snd b) else Py.lt (fst a) (fst b).

(** Truth value of a number fetched with [d.get(k)]: [None] and [0] are false. *)
Definition truthy (field : option Q) : bool :=
  match field with
  | Some x => negb (Py.eq x 0)
  | None => false
  end.

(** A [for] loop whose body may raise. *)
Fixpoint for_each {A S} (body : S -> A -> exn S) (l : list A) (s : S) : exn S :=
  match l with
  | [] => Return s
  | x :: l' => try! s' := body s x in for_each body l' s'
  end.

(** A list comprehension whose expression may raise. *)
Fixpoint map_exn {A B} (f : A -> exn B) (l : list A) : exn (list B) :=
  match l with
  | [] => Return []
  | x :: l' => try! y := f x in try! ys := map_exn f l' in Return (y :: ys)
  end.

(** The preference dictionary built by [_extract_user_preferences]; both
    engines build it with the same four keys. *)
Record price_range_t : Type := PriceRange { pr_min : Q; pr_max : Q }.

Record preferences : Type := Preferences {
  preferred_categories : gmap string Z;
  price_range : price_range_t;
  eco_score_threshold : Q;
  keywords : list string
}.

(** The dictionary literal both engines start from. *)
Definition initial_preferences : preferences :=
  {| preferred_categories := ∅;
     price_range := {| pr_min := 0; pr_max := 1000 |};
     eco_score_threshold := 0;
     keywords := [] |}.

(** ** server/recommendation_service.py *)

Module Service.

(** A product dictionary of the JSON envelope; every key may be absent. *)
Record product : Type := Product {
  id : option Z;
  category : option string;
  title : option string;
  text : option string;
  price : option Q;
  ecoScore : option Q
}.

(** [{}] *)
Definition empty_dict : product :=
  {| id := None; category := None; title := None; text := None;
     price := None; ecoScore := None |}.

(** A cart or wishlist item: a dictionary that may hold a ['product']. *)
Record activity_item : Type := ActivityItem { item_product : option product }.

(** [{**product, 'recommendation_score': score}] *)
Record scored_product : Type := Scored {
  sp_product : product;
  recommendation_score : Q
}.

Record user_data_t : Type := UserData {
  age : option Z;
  gender : option string;
  cart_items : option (list activity_item);
  wishlist_items : option (list activity_item);
  viewed_products : option (list product)
}.

Record RecommendationEngine : Type := Engine { products : list product }.

Definition _calculate_demographic_score
    (product : product) (user_age : Z) (user_gender : string) : Q :=
  let score := 0 in
  let score := score + dict_get (ecoScore product) 0 * 0.6 in
  let category := Py.lower (dict_get (category product) "") in
  let title := Py.lower (dict_get (title product) "") in
  let text := Py.lower (dict_get (text product) "") in
  let score :=
    if (user_age <? 25)%Z then
      let score :=
        if Py.any (fun keyword => Py.contains keyword category || Py.contains keyword title)
                  ["electronics"; "fashion"; "sports"; "tech"; "gadget"]
        then score + 15 else score in
      if Py.any (fun keyword => Py.contains keyword text)
                ["portable"; "travel"; "compact"; "modern"]
      then score + 5 else score
    else if (user_age <? 40)%Z then
      let score :=
        if Py.any (fun keyword => Py.contains keyword category)
                  ["home"; "kitchen"; "outdoor"; "garden"]
        then score + 15 else score in
      if Py.any (fun keyword => Py.contains keyword text)
                ["family"; "home"; "kitchen"; "cooking"]
      then score + 5 else score
    else
      let score :=
        if Py.any (fun keyword => Py.contains keyword category)
                  ["health"; "improvement"; "garden"; "wellness"]
        then score + 15 else score in
      if Py.any (fun keyword => Py.contains keyword text)
                ["comfort"; "health"; "wellness"; "garden"]
      then score + 5 else score in
  let score :=
    if String.eqb user_gender "female" then
      if Py.any (fun keyword => Py.contains keyword category || Py.contains keyword title)
                ["beauty"; "fashion"; "home"; "personal care"]
      then score + 8 else score
    else if String.eqb user_gender "male" then
      if Py.any (fun keyword => Py.contains keyword category || Py.contains keyword title)
                ["tools"; "automotive"; "sports"; "tech"]
      then score + 8 else score
    else score in
  Py.max0 score.

Definition _extract_user_preferences
    (cart_items wishlist_items : list activity_item)
    (viewed_products : list product) : preferences :=
  let preferences := initial_preferences in
  let all_products :=
    omap item_product cart_items ++ omap item_product wishlist_items
      ++ viewed_products in
  match all_products with
  | [] => preferences
  | _ :: _ =>
    let categories :=
      foldl (fun cats product =>
               let category := dict_get (category product) "" in
               <[category := (dict_get (cats !! category) 0 + 1)%Z]> cats)
            (preferred_categories preferences) all_products in
    let prices :=
      map (fun p => dict_get (price p) 0)
          (List.filter (fun p => truthy (price p)) all_products) in
    let range :=
      match prices with
      | [] => price_range preferences
      | x :: xs => {| pr_min := Py.min_from x xs * 0.8;
                      pr_max := Py.max_from x xs * 1.2 |}
      end in
    let eco_scores :=
      map (fun p => dict_get (ecoScore p) 0)
          (List.filter (fun p => truthy (ecoScore p)) all_products) in
    let threshold :=
      match eco_scores with
      | [] => eco_score_threshold preferences
      | _ :: _ =>
          Py.sum eco_scores / inject_Z (Z.of_nat (length eco_scores)) * 0.8
      end in
    let words :=
      foldl (fun keywords product =>
               let text := dict_get (text product) "" in
               match text with
               | EmptyString => keywords
               | _ => keywords ++ take 10 (Py.split (Py.lower text))
               end)
            (keywords preferences) all_products in
    {| preferred_categories := categories;
       price_range := range;
       eco_score_threshold := threshold;
       keywords := words |}
  end.

Definition _calculate_personalized_score
    (product : product) (preferences : preferences)
    (user_age : Z) (user_gender : string) : Q :=
  let score := 0 in
  let score := score + _calculate_demographic_score product user_age user_gender * 0.4 in
  let category := dict_get (category product) "" in
  let score :=
    match preferred_categories preferences !! category with
    | Some count => score + inject_Z (count * 8)
    | None => score
    end in
  let price := dict_get (price product) 0 in
  let score :=
    if Py.le (pr_min (price_range preferences)) price
       && Py.le price (pr_max (price_range preferences))
    then score + 20 else score in
  let eco_score := dict_get (ecoScore product) 0 in
  let score :=
    if Py.le (eco_score_threshold preferences) eco_score
    then score + 15 else score in
  let product_text := Py.lower (dict_get (text product) "") in
  let keyword_matches :=
    length (List.filter (fun keyword => Py.contains keyword product_text)
                        (keywords preferences)) in
  let score := score + inject_Z (Z.of_nat keyword_matches) * 1.5 in
  Py.max0 score.

(** [x == product_id] for [x] the result of [.get('id')]. *)
Definition id_matches (x : option Z) (product_id : Z) : bool :=
  match x with
  | Some i => (i =? product_id)%Z
  | None => false
  end.

Definition _is_product_in_activity
    (product_id : Z) (cart_items wishlist_items : list activity_item) : bool :=
  if existsb (fun item => id_matches (id (dict_get (item_product item) empty_dict)) product_id)
             cart_items
  then true
  else if existsb (fun item => id_matches (id (dict_get (item_product item) empty_dict)) product_id)
                  wishlist_items
  then true
  else false.

(** The sort key of [get_cold_start_recommendations]. *)
Definition cold_start_key (x : scored_product) : Q * Q :=
  (recommendation_score x, dict_get (ecoScore (sp_product x)) 0).

Definition get_cold_start_recommendations
    (self : RecommendationEngine) (user_age : Z) (user_gender : string)
    (limit : Z) : list scored_product :=
  let scored_products :=
    foldl (fun scored_products product =>
             let score := _calculate_demographic_score product user_age user_gender in
             if Py.lt 0 score
             then scored_products ++ [ {| sp_product := product; recommendation_score := score |} ]
             else scored_products)
          [] (products self) in
  let scored_products :=
    Py.sort_reverse (fun x y => tuple_lt (cold_start_key x) (cold_start_key y))
                    scored_products in
  Py.slice_to limit scored_products.

Definition get_personalized_recommendations
    (self : RecommendationEngine) (user_data : user_data_t) (limit : Z)
    : exn (list scored_product) :=
  let user_age := dict_get (age user_data) 25%Z in
  let user_gender := dict_get (gender user_data) "male" in
  let cart_items := dict_get (cart_items user_data) [] in
  let wishlist_items := dict_get (wishlist_items user_data) [] in
  let viewed_products := dict_get (viewed_products user_data) [] in
  let preferences := _extract_user_preferences cart_items wishlist_items viewed_products in
  try! scored_products :=
    for_each (fun scored_products product =>
                try! product_id := dict_index "id" (id product) in
                if _is_product_in_activity product_id cart_items wishlist_items
                then Return scored_products
                else
                  let score := _calculate_personalized_score product preferences user_age user_gender in
                  if Py.lt 0 score
                  then Return (scored_products ++ [ {| sp_product := product; recommendation_score := score |} ])
                  else Return scored_products)
             (products self) [] in
  let scored_products :=
    Py.sort_reverse (fun x y => Py.lt (recommendation_score x) (recommendation_score y))
                    scored_products in
  Return (Py.slice_to limit scored_products).

End Service.


(** ** server/recommendations.py *)

Module Storage.

(** A product row handed over by the storage layer.  This engine subscripts
    the row ([product['category']]), so an absent key raises. *)
Record product : Type := Product {
  id : option Z;
  category : option string;
  title : option string;
  text : option string;
  price : option Q;
  eco_score : option Q
}.

Record activity_item : Type := ActivityItem { item_product : option product }.

Record scored_product : Type := Scored {
  sp_product : product;
  recommendation_score : Q
}.

Record user : Type := User { age : Z; gender : string }.

(** The storage collaborator; the engine only reads from it. *)
Record storage_t : Type := StorageOf {
  getProducts : Z -> list product;
  getUser : Z -> option user;
  getCartItems : Z -> list activity_item;
  getWishlistItems : Z -> list activity_item;
  getViewedProducts : Z -> Z -> list product
}.

Record RecommendationEngine : Type := Engine { storage : storage_t }.

(** [any(keyword in product['category'].lower() for keyword in keywords)] *)
Definition category_matches (product : product) (keywords : list string) : exn bool :=
  try! category := dict_index "category" (category product) in
  Return (Py.any (fun keyword => Py.contains keyword (Py.lower category)) keywords).

Definition _calculate_demographic_score
    (product : product) (user_age : Z) (user_gender : string) : exn Q :=
  let score := 0 in
  let score := score + dict_get (eco_score product) 0 * 0.6 in
  try! score :=
    if (user_age <? 25)%Z then
      try! hit := category_matches product ["electronics"; "fashion"; "sports"] in
      Return (if hit then score + 10 else score)
    else if (user_age <? 40)%Z then
      try! hit := category_matches product ["home"; "kitchen"; "outdoor"; "garden"] in
      Return (if hit then score + 10 else score)
    else
      try! hit := category_matches product ["health"; "improvement"; "garden"] in
      Return (if hit then score + 10 else score) in
  try! score :=
    if String.eqb user_gender "female" then
      try! hit := category_matches product ["beauty"; "fashion"; "home"] in
      Return (if hit then score + 5 else score)
    else if String.eqb user_gender "male" then
      try! hit := category_matches product ["tools"; "automotive"; "sports"] in
      Return (if hit then score + 5 else score)
    else Return score in
  Return (Py.max0 score).

Definition _extract_user_preferences
    (cart_items wishlist_items : list activity_item)
    (viewed_products : list product) : exn preferences :=
  let preferences := initial_preferences in
  try! from_cart := map_exn (fun item => dict_index "product" (item_product item)) cart_items in
  try! from_wishlist := map_exn (fun item => dict_index "product" (item_product item)) wishlist_items in
  let all_products := from_cart ++ from_wishlist ++ viewed_products in
  match all_products with
  | [] => Return preferences
  | _ :: _ =>
    try! categories :=
      for_each (fun cats product =>
                  try! category := dict_index "category" (category product) in
                  Return (<[category := (dict_get (cats !! category) 0 + 1)%Z]> cats))
               all_products (preferred_categories preferences) in
    try! prices := map_exn (fun p => dict_index "price" (price p)) all_products in
    let range :=
      match prices with
      | [] => price_range preferences
      | x :: xs => {| pr_min := Py.min_from x xs * 0.8;
                      pr_max := Py.max_from x xs * 1.2 |}
      end in
    try! eco_scores := map_exn (fun p => dict_index "eco_score" (eco_score p)) all_products in
    let threshold :=
      match eco_scores with
      | [] => eco_score_threshold preferences
      | _ :: _ =>
          Py.sum eco_scores / inject_Z (Z.of_nat (length eco_scores)) * 0.8
      end in
    try! words :=
      for_each (fun keywords product =>
                  try! text := dict_index "text" (text product) in
                  Return (keywords ++ Py.split (Py.lower text)))
               all_products (keywords preferences) in
    Return {| preferred_categories := categories;
              price_range := range;
              eco_score_threshold := threshold;
              keywords := words |}
  end.

Definition _calculate_personalized_score
    (product : product) (preferences : preferences)
    (user_age : Z) (user_gender : string) : exn Q :=
  let score := 0 in
  try! demographic := _calculate_demographic_score product user_age user_gender in
  let score := score + demographic * 0.3 in
  try! category := dict_index "category" (category product) in
  let score :=
    match preferred_categories preferences !! category with
    | Some count => score + inject_Z (count * 5)
    | None => score
    end in
  try! price := dict_index "price" (price product) in
  let score :=
    if Py.le (pr_min (price_range preferences)) price
       && Py.le price (pr_max (price_range preferences))
    then score + 15 else score in
  try! eco_score := dict_index "eco_score" (eco_score product) in
  let score :=
    if Py.le (eco_score_threshold preferences) eco_score
    then score + 10 else score in
  try! text := dict_index "text" (text product) in
  let product_text := Py.lower text in
  let keyword_matches :=
    length (List.filter (fun keyword => Py.contains keyword product_text)
                        (keywords preferences)) in
  let score := score + inject_Z (Z.of_nat keyword_matches * 2) in
  Return (Py.max0 score).

(** One of the two loops of [_is_product_in_activity]. *)
Fixpoint any_item_is (product_id : Z) (items : list activity_item) : exn bool :=
  match items with
  | [] => Return false
  | item :: items' =>
      try! product := dict_index "product" (item_product item) in
      try! item_id := dict_index "id" (id product) in
      if (item_id =? product_id)%Z then Return true
      else any_item_is product_id items'
  end.

Definition _is_product_in_activity
    (product_id : Z) (cart_items wishlist_items : list activity_item) : exn bool :=
  try! in_cart := any_item_is product_id cart_items in
  if in_cart then Return true
  else
    try! in_wishlist := any_item_is product_id wishlist_items in
    if in_wishlist then Return true else Return false.

Definition get_cold_start_recommendations
    (self : RecommendationEngine) (user_age : Z) (user_gender : string)
    (limit : Z) : exn (list scored_product) :=
  let products := getProducts (storage self) 100 in
  try! scored_products :=
    for_each (fun scored_products product =>
                try! score := _calculate_demographic_score product user_age user_gender in
                if Py.lt 0 score
                then Return (scored_products ++ [ {| sp_product := product; recommendation_score := score |} ])
                else Return scored_products)
             products [] in
  try! keyed :=
    map_exn (fun x =>
               try! eco := dict_index "eco_score" (eco_score (sp_product x)) in
               Return (x, (recommendation_score x, eco)))
            scored_products in
  let scored_products :=
    map fst (Py.sort_reverse (fun x y => tuple_lt (snd x) (snd y)) keyed) in
  Return (Py.slice_to limit scored_products).

Definition get_personalized_recommendations
    (self : RecommendationEngine) (user_id : Z) (limit : Z)
    : exn (list scored_product) :=
  match getUser (storage self) user_id with
  | None => Return []
  | Some user =>
    let cart_items := getCartItems (storage self) user_id in
    let wishlist_items := getWishlistItems (storage self) user_id in
    let viewed_products := getViewedProducts (storage self) user_id 50 in
    try! preferences := _extract_user_preferences cart_items wishlist_items viewed_products in
    let products := getProducts (storage self) 200 in
    try! scored_products :=
      for_each (fun scored_products product =>
                  try! product_id := dict_index "id" (id product) in
                  try! skip := _is_product_in_activity product_id cart_items wishlist_items in
                  if skip then Return scored_products
                  else
                    try! score := _calculate_personalized_score product preferences (age user) (gender user) in
                    if Py.lt 0 score
                    then Return (scored_products ++ [ {| sp_product := product; recommendation_score := score |} ])
                    else Return scored_products)
               products [] in
    let scored_products :=
      Py.sort_reverse (fun x y => Py.lt (recommendation_score x) (recommendation_score y))
                      scored_products in
    Return (Py.slice_to limit scored_products)
  end.

End Storage.

(** ** The scoring rules as the specification words them *)

Module Spec.
Import Service.

Definition bonus (applies : bool) (points : Q) : Q :=
  if applies then points else 0.

(** "matches": some keyword is a substring of one of the lower-cased fields. *)
Definition matches (keywords fields : list string) : bool :=
  existsb (fun keyword => existsb (Py.contains keyword) fields) keywords.

Definition eco_score (product : product) : Q := dict_get (ecoScore product) 0.
Definition category_of (product : product) : string := dict_get (category product) "".
Definition title_of (product : product) : string := dict_get (title product) "".
Definition text_of (product : product) : string := dict_get (text product) "".
Definition price_of (product : product) : Q := dict_get (price product) 0.

(** The three age bands. *)
Definition age_bonus (product : product) (age : Z) : Q :=
  let category := Py.lower (category_of product) in
  let title := Py.lower (title_of product) in
  let text := Py.lower (text_of product) in
  if (age <? 25)%Z then
    bonus (matches ["electronics"; "fashion"; "sports"; "tech"; "gadget"] [category; title]) 15
    + bonus (matches ["portable"; "travel"; "compact"; "modern"] [text]) 5
  else if (age <? 40)%Z then
    bonus (matches ["home"; "kitchen"; "outdoor"; "garden"] [category]) 15
    + bonus (matches ["family"; "home"; "kitchen"; "cooking"] [text]) 5
  else
    bonus (matches ["health"; "improvement"; "garden"; "wellness"] [category]) 15
    + bonus (matches ["comfort"; "health"; "wellness"; "garden"] [text]) 5.

Definition gender_bonus (product : product) (gender : string) : Q :=
  let category := Py.lower (category_of product) in
  let title := Py.lower (title_of product) in
  if String.eqb gender "female" then
    bonus (matches ["beauty"; "fashion"; "home"; "personal care"] [category; title]) 8
  else if String.eqb gender "male" then
    bonus (matches ["tools"; "automotive"; "sports"; "tech"] [category; title]) 8
  else 0.

Definition demographic_score (product : product) (age : Z) (gender : string) : Q :=
  Qmax 0 (eco_score product * 0.6 + age_bonus product age + gender_bonus product gender).

(** The affinity count of a category: 0 when it is not a key of the profile. *)
Definition affinity (profile : preferences) (category : string) : Q :=
  match preferred_categories profile !! category with
  | Some count => inject_Z count
  | None => 0
  end.

Definition price_in_range (profile : preferences) (price : Q) : bool :=
  Qle_bool (pr_min (price_range profile)) price
  && Qle_bool price (pr_max (price_range profile)).

(** How many keywords of the profile occur in the lower-cased text. *)
Definition keyword_hits (profile : preferences) (text : string) : nat :=
  length (List.filter (fun keyword => Py.contains keyword (Py.lower text))
                      (keywords profile)).

Definition personalized_score
    (product : product) (profile : preferences) (age : Z) (gender : string) : Q :=
  Qmax 0
    (0.4 * _calculate_demographic_score product age gender
     + 8 * affinity profile (category_of product)
     + bonus (price_in_range profile (price_of product)) 20
     + bonus (Qle_bool (eco_score_threshold profile) (eco_score product)) 15
     + 1.5 * inject_Z (Z.of_nat (keyword_hits profile (text_of product)))).

(** The flat pool of activity products: cart, then wishlist, then viewed. *)
Definition pool (cart wish : list activity_item) (viewed : list product)
    : list product :=
  omap item_product cart ++ omap item_product wish ++ viewed.

(** The prices of the entries that have one. *)
Definition present_prices (pool : list product) : list Q := omap price pool.

(** The prices of the entries that have one other than 0. *)
Definition nonzero_prices (pool : list product) : list Q :=
  omap (fun p => match price p with
                 | Some x => if Qeq_bool x 0 then None else Some x
                 | None => None
                 end) pool.

(** [range] is [[min * 0.8, max * 1.2]] for the least and the greatest of
    [prices]. *)
Definition range_over (prices : list Q) (range : price_range_t) : Prop :=
  exists lo hi,
    lo ∈ prices /\ hi ∈ prices
    /\ (forall y, y ∈ prices -> lo <= y /\ y <= hi)
    /\ pr_min range == lo * 0.8 /\ pr_max range == hi * 1.2.

(** A record whose absent optional fields hold the documented defaults. *)
Definition with_defaults (p : product) : product :=
  {| id := id p;
     category := Some (category_of p);
     title := Some (title_of p);
     text := Some (text_of p);
     price := Some (price_of p);
     ecoScore := Some (eco_score p) |}.

Definition item_with_defaults (item : activity_item) : activity_item :=
  {| item_product := with_defaults <$> item_product item |}.

(** Does the item wrap a product? *)
Definition has_product (item : activity_item) : bool :=
  match item_product item with
  | Some _ => true
  | None => false
  end.

Definition scored_with_defaults (e : scored_product) : scored_product :=
  {| sp_product := with_defaults (sp_product e);
     recommendation_score := recommendation_score e |}.

(** The product of the worked example of the specification. *)
Definition solar_charger : product :=
  {| id := None;
     category := Some "electronics";
     title := Some "Solar Charger";
     text := Some "portable travel charger";
     price := Some 40;
     ecoScore := Some 50 |}.

End Spec.

(** ** Sample inputs *)

Module Sample.
Import Service.

Definition lamp : product :=
  {| id := Some 1%Z; category := Some "lighting"; title := Some "Desk Lamp";
     text := Some "LED lamp"; price := Some 25; ecoScore := Some 50 |}.

Definition planter : product :=
  {| id := Some 2%Z; category := Some "Home & Garden"; title := Some "Planter";
     text := Some "recycled planter"; price := Some 10; ecoScore := Some 25 |}.

(** No price, no eco-score, no text. *)
Definition mug : product :=
  {| id := Some 3%Z; category := Some "Kitchen"; title := Some "Mug";
     text := None; price := None; ecoScore := None |}.

(** A free sample: its price is present and is 0. *)
Definition sticker : product :=
  {| id := Some 4%Z; category := Some "stationery"; title := Some "Sticker";
     text := Some "free eco sticker"; price := Some 0; ecoScore := Some 40 |}.

Definition engine : RecommendationEngine :=
  {| products := [planter; lamp; mug; sticker] |}.

(** A shopper with the planter in the cart and an item without product in
    the wishlist. *)
Definition shopper : user_data_t :=
  {| age := Some 30%Z; gender := Some "female";
     cart_items := Some [ {| item_product := Some planter |} ];
     wishlist_items := Some [ {| item_product := None |} ];
     viewed_products := Some [sticker; lamp] |}.

(** The same rows as the storage-backed engine receives them. *)
Definition row (p : product) : Storage.product :=
  {| Storage.id := id p; Storage.category := category p; Storage.title := title p;
     Storage.text := text p; Storage.price := price p;
     Storage.eco_score := ecoScore p |}.

Definition store : Storage.storage_t :=
  {| Storage.getProducts := fun _ => map row [planter; lamp; sticker];
     Storage.getUser := fun user_id =>
       if (user_id =? 7)%Z then Some {| Storage.age := 30; Storage.gender := "male" |}
       else None;
     Storage.getCartItems := fun _ => [ {| Storage.item_product := Some (row planter) |} ];
     Storage.getWishlistItems := fun _ => [];
     Storage.getViewedProducts := fun _ _ => [row sticker; row lamp] |}.

End Sample.

(** ** The entry point of server/recommendation_service.py *)

Module Cli.
Import Service.

(** The envelope [json.loads] hands to [main]; every key may be absent. *)
Record input_data_t : Type := InputData {
  in_products : option (list product);
  in_type : option string;
  in_user_data : option user_data_t;
  in_limit : option Z
}.

(** [{}] as user data. *)
Definition no_user_data : user_data_t :=
  {| age := None; gender := None; cart_items := None;
     wishlist_items := None; viewed_products := None |}.

(** What the process leaves behind: the list printed on stdout, or the
    exception reported on stderr with exit status 1. *)
Inductive outcome : Type :=
  | Printed (recommendations : list scored_product)
  | Failed (e : exception).

Definition main (input_data : input_data_t) : outcome :=
  let run :=
    try! products := dict_index "products" (in_products input_data) in
    try! recommendation_type := dict_index "type" (in_type input_data) in
    let user_data := dict_get (in_user_data input_data) no_user_data in
    let limit := dict_get (in_limit input_data) 20%Z in
    let engine := {| products := products |} in
    if String.eqb recommendation_type "cold_start" then
      let user_age := dict_get (age user_data) 25%Z in
      let user_gender := dict_get (gender user_data) "male" in
      Return (get_cold_start_recommendations engine user_age user_gender limit)
    else if String.eqb recommendation_type "personalized" then
      get_personalized_recommendations engine user_data limit
    else Return [] in
  match run with
  | Return recommendations => Printed recommendations
  | Raise e => Failed e
  end.

End Cli.

(** ** get_search_recommendations of server/recommendations.py *)

Module Search.
Import Storage.

(** A search result: a product row, with a ['recommendation_score'] only
    when the results were personalised. *)
Record search_hit : Type := Hit {
  hit_product : product;
  hit_score : option Q
}.

(** [not user_id] *)
Definition anonymous (user_id : option Z) : bool :=
  match user_id with
  | Some n => (n =? 0)%Z
  | None => true
  end.

(** [searchProducts] is the storage method this function calls first. *)
Definition get_search_recommendations
    (self : RecommendationEngine) (searchProducts : string -> Z -> list product)
    (query : string) (user_id : option Z) (limit : Z) : exn (list search_hit) :=
  let products := searchProducts query (limit * 2)%Z in
  if anonymous user_id then
    try! keyed :=
      map_exn (fun x => try! eco := dict_index "eco_score" (eco_score x) in
                        Return (x, eco)) products in
    let sorted := Py.sort_reverse (fun x y => Py.lt (snd x) (snd y)) keyed in
    Return (Py.slice_to limit (map (fun x => {| hit_product := fst x; hit_score := None |}) sorted))
  else
    let user_id := dict_get user_id 0%Z in
    match getUser (storage self) user_id with
    | None =>
        Return (Py.slice_to limit
                  (map (fun x => {| hit_product := x; hit_score := None |}) products))
    | Some user =>
      let cart_items := getCartItems (storage self) user_id in
      let wishlist_items := getWishlistItems (storage self) user_id in
      let viewed_products := getViewedProducts (storage self) user_id 20 in
      try! preferences := _extract_user_preferences cart_items wishlist_items viewed_products in
      try! scored_products :=
        for_each (fun scored_products product =>
                    try! score := _calculate_personalized_score product preferences (age user) (gender user) in
                    Return (scored_products ++ [ {| sp_product := product; recommendation_score := score |} ]))
                 products [] in
      try! keyed :=
        map_exn (fun x =>
                   try! eco := dict_index "eco_score" (eco_score (sp_product x)) in
                   Return (x, (recommendation_score x, eco)))
                scored_products in
      let sorted := Py.sort_reverse (fun x y => tuple_lt (snd x) (snd y)) keyed in
      Return (Py.slice_to limit
                (map (fun x => {| hit_product := sp_product (fst x);
                                  hit_score := Some (recommendation_score (fst x)) |})
                     sorted))
    end.

End Search.

(** ** Vocabulary for the rankings *)

Module Ranking.
Import Service.

(** The age and gender [get_personalized_recommendations] works with. *)
Definition age_of (user_data : user_data_t) : Z := dict_get (age user_data) 25%Z.
Definition gender_of (user_data : user_data_t) : string := dict_get (gender user_data) "male".
Definition cart_of (user_data : user_data_t) : list activity_item :=
  dict_get (cart_items user_data) [].
Definition wishlist_of (user_data : user_data_t) : list activity_item :=
  dict_get (wishlist_items user_data) [].

(** The profile it extracts. *)
Definition profile_of (user_data : user_data_t) : preferences :=
  _extract_user_preferences (cart_of user_data) (wishlist_of user_data)
    (dict_get (viewed_products user_data) []).

Definition personal_score (user_data : user_data_t) (p : product) : Q :=
  _calculate_personalized_score p (profile_of user_data)
    (age_of user_data) (gender_of user_data).

(** A candidate is admitted when it is neither in the cart nor in the
    wishlist and scores above 0. *)
Definition admitted (user_data : user_data_t) (p : product) : bool :=
  match id p with
  | Some k =>
      negb (_is_product_in_activity k (cart_of user_data) (wishlist_of user_data))
      && Py.lt 0 (personal_score user_data p)
  | None => false
  end.

(** The admitted candidates with their scores, in candidate order. *)
Definition scored_candidates (self : RecommendationEngine) (user_data : user_data_t)
    : list scored_product :=
  map (fun p => Scored p (personal_score user_data p))
      (List.filter (admitted user_data) (products self)).

(** The entries of a list that carry a given score. *)
Definition with_score (s : Q) (l : list scored_product) : list scored_product :=
  List.filter (fun e => Py.eq (recommendation_score e) s) l.

End Ranking.

(** ** More sample inputs *)

Module Twins.
Import Service.

(** The lamp of the samples under a second identifier. *)
Definition lamp_twin : product :=
  {| id := Some 5%Z; category := Some "lighting"; title := Some "Desk Lamp";
     text := Some "LED lamp"; price := Some 25; ecoScore := Some 50 |}.

Definition engine : RecommendationEngine :=
  {| products := [Sample.planter; Sample.lamp; Sample.mug; lamp_twin] |}.

End Twins.

(** ** Vocabulary for the extracted profile *)

Module Profile.
Import Service.

(** How many products of the pool carry the category [c] (an absent
    category counts as [""]). *)
Definition category_count (c : string) (pool : list product) : nat :=
  length (List.filter (fun p => String.eqb (Spec.category_of p) c) pool).

(** The eco-scores of the entries that have one other than 0. *)
Definition nonzero_eco_scores (pool : list product) : list Q :=
  omap (fun p => match ecoScore p with
                 | Some x => if Qeq_bool x 0 then None else Some x
                 | None => None
                 end) pool.

(** Every character of [s] passes [test]. *)
Fixpoint all_chars (test : ascii -> bool) (s : string) : bool :=
  match s with
  | EmptyString => true
  | String c s' => test c && all_chars test s'
  end.


End Profile.

(** ** Sample envelopes and a sample search *)

Module Envelopes.
Import Service Cli.

Definition personalized_request : input_data_t :=
  {| in_products := Some (products Sample.engine);
     in_type := Some "personalized";
     in_user_data := Some Sample.shopper;
     in_limit := None |}.

Definition searchProducts (query : string) (limit : Z) : list Storage.product :=
  if String.eqb query "lamp"
  then map Sample.row [Sample.sticker; Sample.lamp; Sample.planter]
  else [].

End Envelopes.

(** ** The two engines side by side *)

Module Rows.
Import Service.

(** A cart or wishlist item as the storage-backed engine receives it. *)
Definition row_item (item : activity_item) : Storage.activity_item :=
  {| Storage.item_product := Sample.row <$> item_product item |}.


End Rows.

(** ** Letter case *)

Module Case.
Import Service.

(** The product with category, title and text in lower case. *)
Definition lowered (p : product) : product :=
  {| id := id p;
     category := Py.lower <$> category p;
     title := Py.lower <$> title p;
     text := Py.lower <$> text p;
     price := price p;
     ecoScore := ecoScore p |}.

End Case.

(** ** A store with a tie *)

Module Ties.

(** Scores 30 for a man of 30: 15 from the eco-score, 10 for "home", 5 for
    "tools". *)
Definition toolbox : Storage.product :=
  {| Storage.id := Some 6%Z; Storage.category := Some "Home Tools";
     Storage.title := Some "Toolbox"; Storage.text := Some "steel toolbox";
     Storage.price := Some 35; Storage.eco_score := Some 25 |}.

Definition store : Storage.storage_t :=
  {| Storage.getProducts := fun _ => [toolbox; Sample.row Sample.lamp];
     Storage.getUser := fun _ => None;
     Storage.getCartItems := fun _ => [];
     Storage.getWishlistItems := fun _ => [];
     Storage.getViewedProducts := fun _ _ => [] |}.

End Ties.

(** ** A product without its descriptive fields *)

Module Bare.
Import Service.

(** The product with category, title and text removed. *)
Definition bare (p : product) : product :=
  {| id := id p; category := None; title := None; text := None;
     price := price p; ecoScore := ecoScore p |}.

End Bare.
(** * Properties *)

(** ** The built-ins on small inputs *)

Example lower_ex : Py.lower "Solar Charger" = "solar charger".
Proof. reflexivity. Qed.
Example split_ex : Py.split "  eco  bamboo brush " = ["eco"; "bamboo"; "brush"].
Proof. reflexivity. Qed.
Example contains_ex : Py.contains "tech" "electronics" = false /\ Py.contains "" "x" = true.
Proof. split; reflexivity. Qed.
Example sort_ex : Py.sort_reverse (fun a b => Py.lt (fst a) (fst b))
   [(1, "a"); (3, "b"); (1, "c"); (2, "d"); (3, "e")] = [(3, "b"); (3, "e"); (2, "d"); (1, "a"); (1, "c")].
Proof. reflexivity. Qed.
Example slice_ex : Py.slice_to 2 [1;2;3]%nat = [1;2]%nat /\ Py.slice_to (-1) [1;2;3]%nat = [1;2]%nat
  /\ Py.slice_to (-5) [1;2;3]%nat = [] /\ Py.slice_to 7 [1;2;3]%nat = [1;2;3]%nat.
Proof. repeat split. Qed.

(** ** Comparisons and clamping *)

Lemma lt_spec (x y : Q) : reflect (x < y) (Py.lt x y).
Proof.
  unfold Py.lt. destruct (Qle_bool y x) eqn:E; constructor.
  - apply Qle_bool_iff in E. by apply Qle_not_lt.
  - apply Qnot_le_lt. intros H. apply Qle_bool_iff in H. congruence.
Qed.

Lemma le_spec (x y : Q) : reflect (x <= y) (Py.le x y).
Proof.
  unfold Py.le. destruct (Qle_bool x y) eqn:E; constructor.
  - by apply Qle_bool_iff.
  - intros H. apply Qle_bool_iff in H. congruence.
Qed.

Lemma eq_spec (x y : Q) : reflect (x == y) (Py.eq x y).
Proof.
  unfold Py.eq. destruct (Qeq_bool x y) eqn:E; constructor.
  - by apply Qeq_bool_iff.
  - by apply Qeq_bool_neq.
Qed.

(** Turns every comparison of the goal and the context into a proposition. *)
Ltac py_compare :=
  repeat match goal with
  | H : context [Py.lt ?x ?y] |- _ => destruct (lt_spec x y)
  | H : context [Py.le ?x ?y] |- _ => destruct (le_spec x y)
  | H : context [Py.eq ?x ?y] |- _ => destruct (eq_spec x y)
  | |- context [Py.lt ?x ?y] => destruct (lt_spec x y)
  | |- context [Py.le ?x ?y] => destruct (le_spec x y)
  | |- context [Py.eq ?x ?y] => destruct (eq_spec x y)
  end.

Lemma max0_nonneg (x : Q) : 0 <= Py.max0 x.
Proof. unfold Py.max0. py_compare; lra. Qed.

Lemma max0_Qmax (x : Q) : Py.max0 x == Qmax 0 x.
Proof.
  unfold Py.max0. py_compare.
  - symmetry. apply Q.max_r. lra.
  - symmetry. apply Q.max_l. lra.
Qed.

Lemma max0_mono (x y : Q) : x <= y -> Py.max0 x <= Py.max0 y.
Proof. intros H. unfold Py.max0. py_compare; lra. Qed.

(** ** Scoring *)

Section Scoring.
Import Service.

Lemma matches_one (keywords : list string) (field : string) :
  Spec.matches keywords [field]
  = Py.any (fun keyword => Py.contains keyword field) keywords.
Proof.
  unfold Spec.matches, Py.any.
  induction keywords as [|k ks IH]; simpl in *; [done|].
  by rewrite IH, orb_false_r.
Qed.

Lemma matches_two (keywords : list string) (f1 f2 : string) :
  Spec.matches keywords [f1; f2]
  = Py.any (fun keyword => Py.contains keyword f1 || Py.contains keyword f2) keywords.
Proof.
  unfold Spec.matches, Py.any.
  induction keywords as [|k ks IH]; simpl in *; [done|].
  by rewrite IH, orb_false_r.
Qed.

(** The accumulation of [_calculate_demographic_score] is the rule table of
    the specification: base, age band, gender, floor. *)
Lemma demographic_score_rule (p : product) (age : Z) (gender : string) :
  _calculate_demographic_score p age gender == Spec.demographic_score p age gender.
Proof.
  unfold _calculate_demographic_score, Spec.demographic_score.
  rewrite max0_Qmax. apply Q.max_compat; [reflexivity|].
  unfold Spec.age_bonus, Spec.gender_bonus, Spec.eco_score, Spec.category_of,
    Spec.title_of, Spec.text_of.
  rewrite !matches_one, !matches_two. unfold Spec.bonus.
  repeat case_match; lra.
Qed.

(** C2: the worked example.  The solar charger (category "electronics",
    title "Solar Charger", text "portable travel charger", price 40,
    eco-score 50) scores exactly 50 for a 20 year old male: 30 from the
    eco-score, 15 from the category match of the under-25 band, 5 from its
    text match, and nothing from the gender rule. *)
Theorem solar_charger_scores_50 :
  _calculate_demographic_score Spec.solar_charger 20 "male" == 50
  /\ Spec.eco_score Spec.solar_charger * 0.6 == 30
  /\ Spec.matches ["electronics"; "fashion"; "sports"; "tech"; "gadget"]
        [Py.lower "electronics"; Py.lower "Solar Charger"] = true
  /\ Spec.matches ["portable"; "travel"; "compact"; "modern"]
        [Py.lower "portable travel charger"] = true
  /\ Spec.age_bonus Spec.solar_charger 20 == 15 + 5
  /\ Spec.gender_bonus Spec.solar_charger "male" == 0.
Proof. repeat split; vm_compute; reflexivity. Qed.

(** C8: both scores are clamped below at 0, whatever the product, the
    profile, the age and the gender. *)
Theorem scores_never_negative
    (p : product) (profile : preferences) (age : Z) (gender : string) :
  0 <= _calculate_demographic_score p age gender
  /\ 0 <= _calculate_personalized_score p profile age gender.
Proof. split; apply max0_nonneg. Qed.

(** C10: with category, title and text fixed, the demographic score grows
    with the eco-score. *)
Theorem demographic_score_monotone
    (age : Z) (gender : string) (p1 p2 : product) :
  category p1 = category p2 ->
  title p1 = title p2 ->
  text p1 = text p2 ->
  Spec.eco_score p1 <= Spec.eco_score p2 ->
  _calculate_demographic_score p1 age gender
  <= _calculate_demographic_score p2 age gender.
Proof.
  intros Hc Ht Hx He.
  rewrite !demographic_score_rule. unfold Spec.demographic_score.
  assert (Spec.age_bonus p1 age = Spec.age_bonus p2 age) as ->.
  { unfold Spec.age_bonus, Spec.category_of, Spec.title_of, Spec.text_of.
    by rewrite Hc, Ht, Hx. }
  assert (Spec.gender_bonus p1 gender = Spec.gender_bonus p2 gender) as ->.
  { unfold Spec.gender_bonus, Spec.category_of, Spec.title_of.
    by rewrite Hc, Ht. }
  apply Q.max_le_compat_l. lra.
Qed.

Lemma demographic_score_monotone_witness :
  _calculate_demographic_score
    {| id := Some 1%Z; category := Some "garden"; title := None;
       text := Some "compact"; price := None; ecoScore := None |} 31 "female"
  <= _calculate_demographic_score
    {| id := Some 2%Z; category := Some "garden"; title := None;
       text := Some "compact"; price := Some 3; ecoScore := Some 70 |} 31 "female".
Proof.
  apply demographic_score_monotone; try reflexivity.
  vm_compute. discriminate.
Defined.

(** C1: the personalised score is 0.4 times the demographic score, plus 8
    per affinity count of the product's category (0 when the category is no
    key of the profile), plus 20 when the price lies in the closed price
    range, plus 15 when the eco-score reaches the threshold, plus 1.5 per
    profile keyword found in the lower-cased text, floored at 0. *)
Theorem personalized_score_formula
    (p : product) (profile : preferences) (age : Z) (gender : string) :
  _calculate_personalized_score p profile age gender
  == Spec.personalized_score p profile age gender.
Proof.
  unfold _calculate_personalized_score, Spec.personalized_score.
  rewrite max0_Qmax. apply Q.max_compat; [reflexivity|].
  unfold Spec.affinity, Spec.price_in_range, Spec.keyword_hits, Spec.bonus,
    Spec.category_of, Spec.price_of, Spec.eco_score, Spec.text_of, Py.le.
  repeat case_match; rewrite ?inject_Z_mult; change (inject_Z 8) with 8; lra.
Qed.

End Scoring.

(** ** Sorting, slicing and loops that append *)

Section SortFacts.
Context {A : Type} (key_lt : A -> A -> bool).

Lemma insert_desc_perm (x : A) (l : list A) :
  Py.insert_desc key_lt x l ≡ₚ x :: l.
Proof.
  induction l as [|y l IH]; simpl; [done|].
  destruct (key_lt x y); [|done].
  rewrite IH. apply Permutation_swap.
Qed.

Lemma sort_reverse_perm (l : list A) : Py.sort_reverse key_lt l ≡ₚ l.
Proof.
  induction l as [|x l IH]; simpl; [done|].
  by rewrite insert_desc_perm, IH.
Qed.

Lemma sort_reverse_length (l : list A) :
  length (Py.sort_reverse key_lt l) = length l.
Proof. apply Permutation_length, sort_reverse_perm. Qed.

(** The key order must be a strict weak order for the result to be sorted. *)
Hypothesis key_lt_asym : forall x y, key_lt x y = true -> key_lt y x = false.
Hypothesis key_ge_trans :
  forall x y z, key_lt x y = false -> key_lt y z = false -> key_lt x z = false.

Lemma insert_desc_sorted (x : A) (l : list A) :
  StronglySorted (fun a b => key_lt a b = false) l ->
  StronglySorted (fun a b => key_lt a b = false) (Py.insert_desc key_lt x l).
Proof.
  induction l as [|y l IH]; simpl; intros Hs.
  - repeat constructor.
  - apply StronglySorted_cons in Hs as [Hy Hl].
    destruct (key_lt x y) eqn:E.
    + apply StronglySorted_cons. split; [|by apply IH].
      rewrite insert_desc_perm. constructor; [by apply key_lt_asym|done].
    + apply StronglySorted_cons. split.
      * constructor; [done|].
        eapply Forall_impl; [exact Hy|]. intros z Hz. by eapply key_ge_trans.
      * by apply StronglySorted_cons.
Qed.

Lemma sort_reverse_sorted (l : list A) :
  StronglySorted (fun a b => key_lt a b = false) (Py.sort_reverse key_lt l).
Proof.
  induction l as [|x l IH]; simpl; [constructor|]. by apply insert_desc_sorted.
Qed.

End SortFacts.

Lemma sorted_lookup {A} (R : A -> A -> Prop) (l : list A) (i j : nat) (a b : A) :
  StronglySorted R l -> l !! i = Some a -> l !! j = Some b -> (i < j)%nat -> R a b.
Proof.
  intros Hs. revert i j. induction Hs as [|x l Hs IH Hx]; intros i j Hi Hj Hij.
  - done.
  - destruct j as [|j]; [lia|]. destruct i as [|i]; simpl in *.
    + injection Hi as ->. rewrite Forall_forall in Hx.
      apply Hx. by eapply list_elem_of_lookup_2.
    + eapply IH; eauto. lia.
Qed.

Lemma slice_to_lookup {A} (n : Z) (l : list A) (i : nat) (a : A) :
  Py.slice_to n l !! i = Some a -> l !! i = Some a.
Proof.
  unfold Py.slice_to. destruct (0 <=? n)%Z; intros H;
    by apply lookup_take_Some in H as [H _].
Qed.

Lemma slice_to_elem_of {A} (n : Z) (l : list A) (a : A) :
  a ∈ Py.slice_to n l -> a ∈ l.
Proof.
  intros [i Hi]%list_elem_of_lookup_1.
  eapply list_elem_of_lookup_2, slice_to_lookup, Hi.
Qed.

Lemma slice_to_length {A} (n : Z) (l : list A) :
  (length (Py.slice_to n l) <= length l)%nat
  /\ ((0 <= n)%Z -> (Z.of_nat (length (Py.slice_to n l)) <= n)%Z).
Proof.
  unfold Py.slice_to. destruct (0 <=? n)%Z eqn:E; rewrite length_take; lia.
Qed.

(** A loop that appends the image of the items passing a test. *)
Lemma foldl_append {A B} (test : A -> bool) (f : A -> B) (l : list A) (acc : list B) :
  foldl (fun acc x => if test x then acc ++ [f x] else acc) acc l
  = acc ++ map f (List.filter test l).
Proof.
  revert acc. induction l as [|x l IH]; intros acc; simpl.
  - by rewrite app_nil_r.
  - rewrite IH. destruct (test x); simpl; [|done]. by rewrite <- app_assoc.
Qed.

(** The tuple order is a strict weak order. *)
Lemma tuple_lt_asym (a b : Q * Q) : tuple_lt a b = true -> tuple_lt b a = false.
Proof.
  unfold tuple_lt. destruct a as [a1 a2], b as [b1 b2]; simpl.
  intros H. py_compare; try done; lra.
Qed.

Lemma tuple_ge_trans (a b c : Q * Q) :
  tuple_lt a b = false -> tuple_lt b c = false -> tuple_lt a c = false.
Proof.
  unfold tuple_lt. destruct a as [a1 a2], b as [b1 b2], c as [c1 c2]; simpl.
  intros H1 H2. py_compare; try done; lra.
Qed.

(** ** Cold-start ranking *)

Section ColdStart.
Import Service.

(** The loop of [get_cold_start_recommendations] keeps, in order, the
    candidates with a positive score. *)
Lemma cold_start_unfold (self : RecommendationEngine) (age : Z) (gender : string) (limit : Z) :
  get_cold_start_recommendations self age gender limit
  = Py.slice_to limit
      (Py.sort_reverse (fun x y => tuple_lt (cold_start_key x) (cold_start_key y))
         (map (fun p => Scored p (_calculate_demographic_score p age gender))
              (List.filter (fun p => Py.lt 0 (_calculate_demographic_score p age gender))
                           (products self)))).
Proof.
  unfold get_cold_start_recommendations.
  by rewrite (foldl_append
    (fun p => Py.lt 0 (_calculate_demographic_score p age gender))
    (fun p => Scored p (_calculate_demographic_score p age gender))).
Qed.

Lemma cold_start_sorted (l : list scored_product) :
  StronglySorted (fun a b => tuple_lt (cold_start_key a) (cold_start_key b) = false)
    (Py.sort_reverse (fun x y => tuple_lt (cold_start_key x) (cold_start_key y)) l).
Proof.
  apply (sort_reverse_sorted (fun x y => tuple_lt (cold_start_key x) (cold_start_key y))).
  - intros x y. apply tuple_lt_asym.
  - intros x y z. apply tuple_ge_trans.
Qed.

(** C9: for a limit that is not negative, the cold-start ranking returns at
    most [limit] entries and at most as many as there are candidates with a
    demographic score above 0. *)
Theorem cold_start_length
    (self : RecommendationEngine) (age : Z) (gender : string) (limit : Z) :
  (0 <= limit)%Z ->
  (Z.of_nat (length (get_cold_start_recommendations self age gender limit)) <= limit)%Z
  /\ (length (get_cold_start_recommendations self age gender limit)
      <= length (List.filter
                   (fun p => Py.lt 0 (_calculate_demographic_score p age gender))
                   (products self)))%nat.
Proof.
  intros Hlimit. rewrite cold_start_unfold.
  split; [by apply slice_to_length|].
  etrans; [apply slice_to_length|].
  by rewrite sort_reverse_length, length_map.
Qed.

(** C6: in the cold-start ranking, of two entries with equal recommendation
    scores the one with the higher eco-score comes first. *)
Theorem cold_start_tie_break
    (self : RecommendationEngine) (age : Z) (gender : string) (limit : Z)
    (i j : nat) (a b : scored_product) :
  get_cold_start_recommendations self age gender limit !! i = Some a ->
  get_cold_start_recommendations self age gender limit !! j = Some b ->
  recommendation_score a == recommendation_score b ->
  Spec.eco_score (sp_product b) < Spec.eco_score (sp_product a) ->
  (i < j)%nat.
Proof.
  rewrite cold_start_unfold. intros Hi%slice_to_lookup Hj%slice_to_lookup Hs He.
  destruct (decide (i < j)%nat) as [|Hij]; [done|exfalso].
  destruct (decide (i = j)) as [->|Hne].
  - rewrite Hi in Hj. injection Hj as ->. lra.
  - assert (tuple_lt (cold_start_key b) (cold_start_key a) = false) as Hba.
    { eapply (sorted_lookup
        (fun a b => tuple_lt (cold_start_key a) (cold_start_key b) = false) _ j i);
        [apply cold_start_sorted|exact Hj|exact Hi|lia]. }
    revert Hba. unfold tuple_lt, cold_start_key, Spec.eco_score in *. simpl.
    py_compare; try done; lra.
Qed.

Lemma cold_start_length_witness :
  (Z.of_nat (length (get_cold_start_recommendations Sample.engine 30 "female" 2)) <= 2)%Z
  /\ (length (get_cold_start_recommendations Sample.engine 30 "female" 2)
      <= length (List.filter
                   (fun p => Py.lt 0 (_calculate_demographic_score p 30 "female"))
                   (products Sample.engine)))%nat.
Proof. apply cold_start_length. lia. Defined.

Lemma cold_start_tie_break_witness :
  get_cold_start_recommendations Sample.engine 30 "male" 3 !! 0%nat
    = Some (Scored Sample.lamp (0 + 50 * 0.6))
  /\ get_cold_start_recommendations Sample.engine 30 "male" 3 !! 1%nat
    = Some (Scored Sample.planter (0 + 25 * 0.6 + 15))
  /\ (0 < 1)%nat.
Proof.
  split; [reflexivity|]. split; [reflexivity|].
  apply (cold_start_tie_break Sample.engine 30 "male" 3 0 1
           (Scored Sample.lamp (0 + 50 * 0.6))
           (Scored Sample.planter (0 + 25 * 0.6 + 15))).
  - reflexivity.
  - reflexivity.
  - vm_compute. reflexivity.
  - vm_compute. reflexivity.
Defined.

End ColdStart.

(** ** Personalised ranking *)

Section Personalized.
Import Service.

Lemma in_activity_elem_of
    (cart wish : list activity_item) (item : activity_item) (q : product) (k : Z) :
  item ∈ cart ++ wish -> item_product item = Some q -> id q = Some k ->
  _is_product_in_activity k cart wish = true.
Proof.
  intros Hin Hq Hk. unfold _is_product_in_activity.
  assert (id_matches (id (dict_get (item_product item) empty_dict)) k = true) as Hm.
  { rewrite Hq. simpl. rewrite Hk. simpl. apply Z.eqb_refl. }
  apply elem_of_app in Hin as [Hin|Hin]; apply list_elem_of_In in Hin.
  - rewrite (proj2 (existsb_exists _ cart)); [done|]. eauto.
  - rewrite (proj2 (existsb_exists _ wish)); [|eauto]. by case_match.
Qed.

(** What the body of the loop of [get_personalized_recommendations] keeps. *)
Lemma personalized_loop
    (profile : preferences) (age : Z) (gender : string)
    (cart wish : list activity_item) (candidates : list product)
    (acc out : list scored_product) :
  for_each (fun scored_products product =>
              try! product_id := dict_index "id" (id product) in
              if _is_product_in_activity product_id cart wish
              then Return scored_products
              else
                let score := _calculate_personalized_score product profile age gender in
                if Py.lt 0 score
                then Return (scored_products ++ [ {| sp_product := product; recommendation_score := score |} ])
                else Return scored_products)
           candidates acc = Return out ->
  forall e, e ∈ out ->
    e ∈ acc
    \/ exists k, sp_product e ∈ candidates /\ id (sp_product e) = Some k
         /\ _is_product_in_activity k cart wish = false
         /\ recommendation_score e = _calculate_personalized_score (sp_product e) profile age gender
         /\ 0 < recommendation_score e.
Proof.
  revert acc. induction candidates as [|c cs IH]; intros acc; simpl.
  - intros [= ->] e He. by left.
  - destruct (id c) as [k|] eqn:Hid; simpl; [|done].
    destruct (_is_product_in_activity k cart wish) eqn:Hact.
    + intros H e He. destruct (IH _ H e He) as [?|(k' & Hin & Hrest)]; [by left|].
      right. exists k'. split; [by apply list_elem_of_further|exact Hrest].
    + destruct (lt_spec 0 (_calculate_personalized_score c profile age gender)) as [Hpos|Hneg].
      * intros H e He. destruct (IH _ H e He) as [Hacc|(k' & Hin & Hrest)].
        -- apply elem_of_app in Hacc as [?|Hnew]; [by left|].
           apply list_elem_of_singleton in Hnew as ->. right. exists k. simpl.
           split; [apply list_elem_of_here|done].
        -- right. exists k'. split; [by apply list_elem_of_further|exact Hrest].
      * intros H e He. destruct (IH _ H e He) as [?|(k' & Hin & Hrest)]; [by left|].
        right. exists k'. split; [by apply list_elem_of_further|exact Hrest].
Qed.

(** The loop raises only for a candidate without identifier. *)
Lemma personalized_loop_returns
    (profile : preferences) (age : Z) (gender : string)
    (cart wish : list activity_item) (candidates : list product)
    (acc : list scored_product) :
  Forall (fun c => is_Some (id c)) candidates ->
  exists out,
    for_each (fun scored_products product =>
                try! product_id := dict_index "id" (id product) in
                if _is_product_in_activity product_id cart wish
                then Return scored_products
                else
                  let score := _calculate_personalized_score product profile age gender in
                  if Py.lt 0 score
                  then Return (scored_products ++ [ {| sp_product := product; recommendation_score := score |} ])
                  else Return scored_products)
             candidates acc = Return out.
Proof.
  intros Hids. revert acc. induction Hids as [|c cs [k Hk] _ IH]; intros acc; simpl.
  - by eexists.
  - rewrite Hk. simpl. repeat case_match; apply IH.
Qed.

Lemma personalized_returns
    (self : RecommendationEngine) (user_data : user_data_t) (limit : Z) :
  Forall (fun c => is_Some (id c)) (products self) ->
  exists out, get_personalized_recommendations self user_data limit = Return out.
Proof.
  intros Hids. unfold get_personalized_recommendations.
  edestruct personalized_loop_returns as [scored ->]; [exact Hids|].
  simpl. by eexists.
Qed.

Lemma personalized_entries
    (self : RecommendationEngine) (user_data : user_data_t) (limit : Z)
    (out : list scored_product) (e : scored_product) :
  get_personalized_recommendations self user_data limit = Return out ->
  e ∈ out ->
  exists k, sp_product e ∈ products self /\ id (sp_product e) = Some k
    /\ _is_product_in_activity k (dict_get (cart_items user_data) [])
         (dict_get (wishlist_items user_data) []) = false
    /\ 0 < recommendation_score e.
Proof.
  unfold get_personalized_recommendations.
  destruct (for_each _ _ _) as [scored|] eqn:Hloop; simpl; [|done].
  intros [= <-] He.
  apply slice_to_elem_of in He. rewrite sort_reverse_perm in He.
  destruct (personalized_loop _ _ _ _ _ _ _ _ Hloop e He) as [Hnil|(k & ? & ? & ? & ? & ?)].
  - by apply elem_of_nil in Hnil.
  - by exists k.
Qed.

(** C3: no entry of the personalised ranking carries the identifier of a
    product wrapped in a cart item or in a wishlist item. *)
Theorem personalized_excludes_activity
    (self : RecommendationEngine) (user_data : user_data_t) (limit : Z)
    (out : list scored_product) (item : activity_item) (q : product) (k : Z)
    (e : scored_product) :
  get_personalized_recommendations self user_data limit = Return out ->
  item ∈ dict_get (cart_items user_data) [] ++ dict_get (wishlist_items user_data) [] ->
  item_product item = Some q ->
  id q = Some k ->
  e ∈ out ->
  id (sp_product e) <> Some k.
Proof.
  intros Hout Hitem Hq Hk He Hid.
  destruct (personalized_entries _ _ _ _ _ Hout He) as (k' & _ & Hk' & Hact & _).
  assert (k' = k) as -> by congruence.
  by rewrite (in_activity_elem_of _ _ _ _ _ Hitem Hq Hk) in Hact.
Qed.

Lemma personalized_excludes_activity_witness :
  exists out e,
    get_personalized_recommendations Sample.engine Sample.shopper 5 = Return out
    /\ e ∈ out /\ id (sp_product e) <> Some 2%Z.
Proof.
  eexists _, _. split; [reflexivity|]. split; [apply list_elem_of_here|].
  eapply (personalized_excludes_activity Sample.engine Sample.shopper 5 _
            {| item_product := Some Sample.planter |} Sample.planter 2).
  - reflexivity.
  - apply list_elem_of_here.
  - reflexivity.
  - reflexivity.
  - apply list_elem_of_here.
Defined.

End Personalized.

(** ** Preference extraction *)

Section Extraction.
Import Service.

Lemma min_from_least (x : Q) (xs : list Q) :
  Py.min_from x xs ∈ x :: xs /\ forall y, y ∈ x :: xs -> Py.min_from x xs <= y.
Proof.
  unfold Py.min_from. revert x. induction xs as [|z xs IH]; intros x; simpl.
  - split; [apply list_elem_of_here|]. intros y ->%list_elem_of_singleton. lra.
  - destruct (lt_spec z x) as [Hlt|Hge].
    + destruct (IH z) as [Hin Hle]. split; [by apply list_elem_of_further|].
      intros y [->|Hy]%elem_of_cons; [|by apply Hle].
      specialize (Hle z (list_elem_of_here _ _)). lra.
    + destruct (IH x) as [Hin Hle]. split.
      * apply elem_of_cons in Hin as [->|Hin]; [apply list_elem_of_here|].
        by do 2 apply list_elem_of_further.
      * intros y [->|[->|Hy]%elem_of_cons]%elem_of_cons.
        -- apply Hle, list_elem_of_here.
        -- specialize (Hle x (list_elem_of_here _ _)). lra.
        -- by apply Hle, list_elem_of_further.
Qed.

Lemma max_from_greatest (x : Q) (xs : list Q) :
  Py.max_from x xs ∈ x :: xs /\ forall y, y ∈ x :: xs -> y <= Py.max_from x xs.
Proof.
  unfold Py.max_from. revert x. induction xs as [|z xs IH]; intros x; simpl.
  - split; [apply list_elem_of_here|]. intros y ->%list_elem_of_singleton. lra.
  - destruct (lt_spec x z) as [Hlt|Hge].
    + destruct (IH z) as [Hin Hle]. split; [by apply list_elem_of_further|].
      intros y [->|Hy]%elem_of_cons; [|by apply Hle].
      specialize (Hle z (list_elem_of_here _ _)). lra.
    + destruct (IH x) as [Hin Hle]. split.
      * apply elem_of_cons in Hin as [->|Hin]; [apply list_elem_of_here|].
        by do 2 apply list_elem_of_further.
      * intros y [->|[->|Hy]%elem_of_cons]%elem_of_cons.
        -- apply Hle, list_elem_of_here.
        -- specialize (Hle x (list_elem_of_here _ _)). lra.
        -- by apply Hle, list_elem_of_further.
Qed.

(** The list comprehension over [p.get('price')] reads exactly the prices
    that are present and not 0. *)
Lemma prices_read (l : list product) :
  map (fun p => dict_get (price p) 0) (List.filter (fun p => truthy (price p)) l)
  = Spec.nonzero_prices l.
Proof.
  unfold Spec.nonzero_prices. induction l as [|p l IH]; simpl; [done|].
  destruct (price p) as [x|] eqn:E; simpl; [|exact IH].
  unfold Py.eq. destruct (Qeq_bool x 0); simpl; [exact IH|].
  rewrite E. simpl. f_equal. exact IH.
Qed.

Lemma extract_price_range (cart wish : list activity_item) (viewed : list product) :
  price_range (_extract_user_preferences cart wish viewed)
  = match Spec.nonzero_prices (Spec.pool cart wish viewed) with
    | [] => {| pr_min := 0; pr_max := 1000 |}
    | x :: xs => {| pr_min := Py.min_from x xs * 0.8; pr_max := Py.max_from x xs * 1.2 |}
    end.
Proof.
  unfold _extract_user_preferences, Spec.pool.
  destruct (omap item_product cart ++ omap item_product wish ++ viewed) as [|p l] eqn:E.
  - done.
  - cbv zeta. cbn [price_range]. by rewrite prices_read.
Qed.

(** C5: with an empty cart, an empty wishlist and no viewed product, the
    extracted profile is the default one: price range [0, 1000], eco-score
    threshold 0, no category affinity, no keyword. *)
Theorem extract_empty_activity :
  price_range (_extract_user_preferences [] [] []) = {| pr_min := 0; pr_max := 1000 |}
  /\ eco_score_threshold (_extract_user_preferences [] [] []) = 0
  /\ preferred_categories (_extract_user_preferences [] [] []) = ∅
  /\ keywords (_extract_user_preferences [] [] []) = []
  /\ _extract_user_preferences [] [] [] = initial_preferences.
Proof. repeat split. Qed.

(** The same holds whenever no activity item carries a product. *)
Lemma extract_empty_pool (cart wish : list activity_item) (viewed : list product) :
  Spec.pool cart wish viewed = [] ->
  _extract_user_preferences cart wish viewed = initial_preferences.
Proof.
  unfold _extract_user_preferences, Spec.pool. by intros ->.
Qed.

Lemma nonzero_prices_elem_of (l : list product) (x : Q) :
  x ∈ Spec.nonzero_prices l <-> exists p, p ∈ l /\ price p = Some x /\ ~ x == 0.
Proof.
  unfold Spec.nonzero_prices. rewrite list_elem_of_omap. split.
  - intros (p & Hp & Hx). exists p. split; [done|].
    destruct (price p) as [y|]; [|done].
    destruct (Qeq_bool y 0) eqn:E; [done|]. injection Hx as ->.
    split; [done|]. by apply Qeq_bool_neq.
  - intros (p & Hp & Hx & Hnz). exists p. split; [done|]. rewrite Hx.
    destruct (Qeq_bool x 0) eqn:E; [|done]. by apply Qeq_bool_iff in E.
Qed.

(** C7, as the code has it: the price range is [min * 0.8, max * 1.2] over
    the prices that are present and different from 0; an entry without price
    and an entry whose price is 0 are both left out, and when no entry is
    left the range stays [0, 1000]. *)
Theorem price_range_over_nonzero_prices
    (cart wish : list activity_item) (viewed : list product) :
  (Spec.nonzero_prices (Spec.pool cart wish viewed) = [] ->
   price_range (_extract_user_preferences cart wish viewed)
   = {| pr_min := 0; pr_max := 1000 |})
  /\ (Spec.nonzero_prices (Spec.pool cart wish viewed) <> [] ->
      Spec.range_over (Spec.nonzero_prices (Spec.pool cart wish viewed))
        (price_range (_extract_user_preferences cart wish viewed))).
Proof.
  rewrite extract_price_range.
  destruct (Spec.nonzero_prices (Spec.pool cart wish viewed)) as [|x xs].
  - by split.
  - split; [done|]. intros _.
    destruct (min_from_least x xs) as [Hlo Hleast].
    destruct (max_from_greatest x xs) as [Hhi Hgreatest].
    exists (Py.min_from x xs), (Py.max_from x xs). simpl.
    repeat split; auto; reflexivity.
Qed.

Lemma price_range_over_nonzero_prices_witness :
  Spec.range_over [10; 25]
    (price_range (_extract_user_preferences
       [ {| item_product := Some Sample.planter |} ] [ {| item_product := None |} ]
       [Sample.mug; Sample.sticker; Sample.lamp])).
Proof.
  apply (price_range_over_nonzero_prices
           [ {| item_product := Some Sample.planter |} ] [ {| item_product := None |} ]
           [Sample.mug; Sample.sticker; Sample.lamp]).
  discriminate.
Defined.

(** C7 as claimed does not hold: the sticker's price is present and is 0,
    yet the lower bound is 8 = 10 * 0.8, not 0 * 0.8. *)
Lemma zero_price_is_left_out :
  Spec.present_prices [Sample.sticker; Sample.planter] = [0; 10]
  /\ pr_min (price_range (_extract_user_preferences [] [] [Sample.sticker; Sample.planter])) == 8
  /\ ~ Spec.range_over (Spec.present_prices [Sample.sticker; Sample.planter])
        (price_range (_extract_user_preferences [] [] [Sample.sticker; Sample.planter])).
Proof.
  split; [reflexivity|]. split; [reflexivity|].
  intros (lo & hi & Hlo & _ & Hb & Hmin & _).
  change (Spec.present_prices [Sample.sticker; Sample.planter]) with [0; 10] in *.
  change (pr_min _) with (10 * 0.8) in Hmin.
  destruct (Hb 0 (list_elem_of_here _ _)) as [Hle _].
  lra.
Qed.

End Extraction.

(** ** Absent fields *)

Section Defaults.
Import Service.

Lemma foldl_map {A B S} (f : S -> A -> S) (h : B -> A) (l : list B) (s : S) :
  foldl f s (map h l) = foldl (fun s x => f s (h x)) s l.
Proof. revert s. induction l as [|x l IH]; intros s; simpl; [done|]. apply IH. Qed.

Lemma filter_map {A B} (test : A -> bool) (h : B -> A) (l : list B) :
  List.filter test (map h l) = map h (List.filter (fun x => test (h x)) l).
Proof.
  induction l as [|x l IH]; simpl; [done|].
  destruct (test (h x)); simpl; by rewrite IH.
Qed.

Lemma filter_ext_eq {A} (f g : A -> bool) (l : list A) :
  (forall x, f x = g x) -> List.filter f l = List.filter g l.
Proof.
  intros Hfg. induction l as [|x l IH]; simpl; [done|]. by rewrite Hfg, IH.
Qed.

Lemma sort_reverse_map {A B} (h : A -> B)
    (lt_a : A -> A -> bool) (lt_b : B -> B -> bool) (l : list A) :
  (forall x y, lt_b (h x) (h y) = lt_a x y) ->
  map h (Py.sort_reverse lt_a l) = Py.sort_reverse lt_b (map h l).
Proof.
  intros Hlt. induction l as [|x l IH]; simpl; [done|].
  rewrite <- IH. generalize (Py.sort_reverse lt_a l). intros s.
  induction s as [|y s IHs]; simpl; [done|].
  rewrite Hlt. destruct (lt_a x y); simpl; [|done]. by rewrite IHs.
Qed.

Lemma slice_to_map {A B} (h : A -> B) (n : Z) (l : list A) :
  map h (Py.slice_to n l) = Py.slice_to n (map h l).
Proof.
  unfold Py.slice_to. rewrite length_map.
  destruct (0 <=? n)%Z; symmetry; apply firstn_map.
Qed.

Lemma truthy_default (field : option Q) : truthy (Some (dict_get field 0)) = truthy field.
Proof. by destruct field. Qed.

Lemma demographic_with_defaults (p : product) (age : Z) (gender : string) :
  _calculate_demographic_score (Spec.with_defaults p) age gender
  = _calculate_demographic_score p age gender.
Proof. reflexivity. Qed.

Lemma personalized_with_defaults
    (p : product) (profile : preferences) (age : Z) (gender : string) :
  _calculate_personalized_score (Spec.with_defaults p) profile age gender
  = _calculate_personalized_score p profile age gender.
Proof. reflexivity. Qed.

Lemma pool_with_defaults (cart wish : list activity_item) (viewed : list product) :
  Spec.pool (map Spec.item_with_defaults cart) (map Spec.item_with_defaults wish)
            (map Spec.with_defaults viewed)
  = map Spec.with_defaults (Spec.pool cart wish viewed).
Proof.
  assert (forall items, omap item_product (map Spec.item_with_defaults items)
                        = map Spec.with_defaults (omap item_product items)) as Hitems.
  { induction items as [|[[q|]] items IH]; simpl; [done| |exact IH].
    f_equal. exact IH. }
  unfold Spec.pool. by rewrite !Hitems, !map_app.
Qed.

Lemma pool_has_product (cart wish : list activity_item) (viewed : list product) :
  Spec.pool (List.filter Spec.has_product cart) (List.filter Spec.has_product wish) viewed
  = Spec.pool cart wish viewed.
Proof.
  assert (forall items, omap item_product (List.filter Spec.has_product items)
                        = omap item_product items) as Hitems.
  { induction items as [|[[q|]] items IH]; simpl; [done| |exact IH].
    f_equal. exact IH. }
  unfold Spec.pool. by rewrite !Hitems.
Qed.

(** The profile depends on the activity through the pool only. *)
Lemma extract_pool (cart wish : list activity_item) (viewed : list product) :
  _extract_user_preferences cart wish viewed
  = _extract_user_preferences [] [] (Spec.pool cart wish viewed).
Proof. reflexivity. Qed.

Lemma extract_with_defaults (l : list product) :
  _extract_user_preferences [] [] (map Spec.with_defaults l)
  = _extract_user_preferences [] [] l.
Proof.
  destruct l as [|p l]; [done|].
  unfold _extract_user_preferences.
  change (omap item_product [] ++ omap item_product [] ++ ?v) with v.
  change (map Spec.with_defaults (p :: l))
    with (Spec.with_defaults p :: map Spec.with_defaults l).
  cbv zeta. rewrite <- !(map_cons Spec.with_defaults p l).
  rewrite !foldl_map, !filter_map, !map_map.
  rewrite (filter_ext_eq (fun x => truthy (price (Spec.with_defaults x)))
             (fun x => truthy (price x)))
    by (intros x; apply truthy_default).
  rewrite (filter_ext_eq (fun x => truthy (ecoScore (Spec.with_defaults x)))
             (fun x => truthy (ecoScore x)))
    by (intros x; apply truthy_default).
  reflexivity.
Qed.

Lemma in_activity_has_product (k : Z) (cart wish : list activity_item) :
  _is_product_in_activity k (List.filter Spec.has_product cart)
                            (List.filter Spec.has_product wish)
  = _is_product_in_activity k cart wish.
Proof.
  assert (forall items,
    existsb (fun item => id_matches (id (dict_get (item_product item) empty_dict)) k)
            (List.filter Spec.has_product items)
    = existsb (fun item => id_matches (id (dict_get (item_product item) empty_dict)) k)
              items) as Hitems.
  { induction items as [|[[q|]] items IH]; simpl; [done| |exact IH].
    f_equal. exact IH. }
  unfold _is_product_in_activity. by rewrite !Hitems.
Qed.

Lemma cold_start_with_defaults
    (self : RecommendationEngine) (age : Z) (gender : string) (limit : Z) :
  get_cold_start_recommendations
    {| products := map Spec.with_defaults (products self) |} age gender limit
  = map Spec.scored_with_defaults
      (get_cold_start_recommendations self age gender limit).
Proof.
  rewrite !cold_start_unfold. simpl.
  rewrite slice_to_map.
  rewrite (sort_reverse_map Spec.scored_with_defaults
             (fun x y => tuple_lt (cold_start_key x) (cold_start_key y))
             (fun x y => tuple_lt (cold_start_key x) (cold_start_key y)));
    [|by intros [x ?] [y ?]].
  by rewrite filter_map, !map_map.
Qed.

End Defaults.

(** ** The storage-backed engine

    [server/recommendations.py] follows the same plan with other constants
    and without defaults for absent keys. *)

Section StorageVariant.

(** A row without category makes the demographic score raise. *)
Lemma storage_missing_category_raises (p : Storage.product) (age : Z) (gender : string) :
  Storage.category p = None ->
  Storage._calculate_demographic_score p age gender = Raise (KeyError "category").
Proof.
  intros Hc. unfold Storage._calculate_demographic_score, Storage.category_matches.
  rewrite Hc. simpl. by repeat case_match.
Qed.

Lemma storage_demographic_returns (p : Storage.product) (age : Z) (gender : string) (c : string) :
  Storage.category p = Some c ->
  exists d, Storage._calculate_demographic_score p age gender = Return d /\ 0 <= d.
Proof.
  intros Hc. unfold Storage._calculate_demographic_score, Storage.category_matches.
  rewrite Hc. simpl.
  repeat case_match; simpl; eexists; (split; [reflexivity|apply max0_nonneg]).
Qed.

(** On the worked example this engine answers 40: it adds 10 for the
    category and has no text rule. *)
Lemma storage_solar_charger_scores_40 :
  exists d, Storage._calculate_demographic_score (Sample.row Spec.solar_charger) 20 "male"
            = Return d /\ d == 40.
Proof. eexists. split; [reflexivity|]. vm_compute. reflexivity. Qed.


Lemma storage_scores_never_negative
    (p : Storage.product) (profile : preferences) (age : Z) (gender : string) (v : Q) :
  Storage._calculate_demographic_score p age gender = Return v
  \/ Storage._calculate_personalized_score p profile age gender = Return v ->
  0 <= v.
Proof.
  intros [H|H].
  - destruct (Storage.category p) as [c|] eqn:Hc.
    + destruct (storage_demographic_returns p age gender c Hc) as (d & Hd & Hpos).
      congruence.
    + by rewrite storage_missing_category_raises in H.
  - unfold Storage._calculate_personalized_score in H.
    repeat (match type of H with
            | bind ?m _ = _ => destruct m; simpl in H; [|done]
            end).
    injection H as <-. apply max0_nonneg.
Qed.

Lemma storage_extract_empty_activity :
  Storage._extract_user_preferences [] [] [] = Return initial_preferences.
Proof. reflexivity. Qed.

(** This engine reads every price, a price of 0 included, and raises for a
    row without price. *)
Lemma storage_price_zero_is_read :
  exists r,
    Storage._extract_user_preferences [] [] [Sample.row Sample.sticker; Sample.row Sample.planter]
    = Return r
    /\ pr_min (price_range r) == 0 /\ pr_max (price_range r) == 12.
Proof. eexists. split; [reflexivity|]. split; vm_compute; reflexivity. Qed.

Lemma storage_missing_price_raises :
  Storage._extract_user_preferences [] [] [Sample.row Sample.mug]
  = Raise (KeyError "price").
Proof. reflexivity. Qed.

Lemma storage_demographic_monotone
    (age : Z) (gender : string) (p1 p2 : Storage.product) (d1 d2 : Q) :
  Storage.category p1 = Storage.category p2 ->
  dict_get (Storage.eco_score p1) 0 <= dict_get (Storage.eco_score p2) 0 ->
  Storage._calculate_demographic_score p1 age gender = Return d1 ->
  Storage._calculate_demographic_score p2 age gender = Return d2 ->
  d1 <= d2.
Proof.
  intros Hc He. unfold Storage._calculate_demographic_score, Storage.category_matches.
  rewrite Hc. destruct (Storage.category p2) as [c|]; simpl.
  - repeat case_match; simpl; intros [= <-] [= <-]; apply max0_mono; lra.
  - by repeat case_match.
Qed.

Lemma map_exn_Forall2 {A B} (f : A -> exn B) (l : list A) (ys : list B) :
  map_exn f l = Return ys -> Forall2 (fun x y => f x = Return y) l ys.
Proof.
  revert ys. induction l as [|x l IH]; intros ys; simpl.
  - intros [= <-]. constructor.
  - destruct (f x) as [y|] eqn:Hx; simpl; [|done].
    destruct (map_exn f l) as [ys'|]; simpl; [|done].
    intros [= <-]. constructor; [done|]. by apply IH.
Qed.

(** The scoring loop of the cold-start ranking keeps one entry per candidate
    with a positive score. *)
Lemma storage_cold_loop
    (age : Z) (gender : string) (candidates : list Storage.product)
    (acc scored : list Storage.scored_product) :
  for_each (fun scored_products product =>
              try! score := Storage._calculate_demographic_score product age gender in
              if Py.lt 0 score
              then Return (scored_products ++ [ {| Storage.sp_product := product;
                                                   Storage.recommendation_score := score |} ])
              else Return scored_products)
           candidates acc = Return scored ->
  length scored
  = (length acc
     + length (List.filter
                 (fun p => match Storage._calculate_demographic_score p age gender with
                           | Return score => Py.lt 0 score
                           | Raise _ => false
                           end) candidates))%nat.
Proof.
  revert acc. induction candidates as [|c cs IH]; intros acc; simpl.
  - intros [= <-]. lia.
  - destruct (Storage._calculate_demographic_score c age gender) as [s|]; simpl; [|done].
    destruct (Py.lt 0 s); intros H%IH; rewrite H; [|done].
    rewrite length_app. simpl. lia.
Qed.

(** The cold-start ranking of this engine obeys the same two bounds and the
    same tie-break. *)
Lemma storage_cold_start_length
    (self : Storage.RecommendationEngine) (age : Z) (gender : string) (limit : Z)
    (out : list Storage.scored_product) :
  (0 <= limit)%Z ->
  Storage.get_cold_start_recommendations self age gender limit = Return out ->
  (Z.of_nat (length out) <= limit)%Z
  /\ (length out
      <= length (List.filter
                   (fun p => match Storage._calculate_demographic_score p age gender with
                             | Return score => Py.lt 0 score
                             | Raise _ => false
                             end)
                   (Storage.getProducts (Storage.storage self) 100)))%nat.
Proof.
  intros Hlimit. unfold Storage.get_cold_start_recommendations.
  destruct (for_each _ _ _) as [scored|] eqn:Hloop; simpl; [|done].
  destruct (map_exn _ scored) as [keyed|] eqn:Hkeys; simpl; [|done].
  intros [= <-]. split; [by apply slice_to_length|].
  etrans; [apply slice_to_length|].
  rewrite length_map, sort_reverse_length.
  apply map_exn_Forall2, Forall2_length in Hkeys. rewrite <- Hkeys.
  apply storage_cold_loop in Hloop. rewrite Hloop. simpl. lia.
Qed.

Lemma storage_cold_start_tie_break
    (self : Storage.RecommendationEngine) (age : Z) (gender : string) (limit : Z)
    (out : list Storage.scored_product) (i j : nat) (a b : Storage.scored_product)
    (ea eb : Q) :
  Storage.get_cold_start_recommendations self age gender limit = Return out ->
  out !! i = Some a -> out !! j = Some b ->
  Storage.recommendation_score a == Storage.recommendation_score b ->
  Storage.eco_score (Storage.sp_product a) = Some ea ->
  Storage.eco_score (Storage.sp_product b) = Some eb ->
  eb < ea ->
  (i < j)%nat.
Proof.
  unfold Storage.get_cold_start_recommendations.
  destruct (for_each _ _ _) as [scored|] eqn:Hloop; simpl; [|done].
  destruct (map_exn _ scored) as [keyed|] eqn:Hkeys; simpl; [|done].
  intros [= <-] Hi%slice_to_lookup Hj%slice_to_lookup Hs Hea Heb He.
  change (map fst ?l) with (fst <$> l) in Hi, Hj.
  apply list_lookup_fmap_Some in Hi as ([a' ka] & -> & Hi).
  apply list_lookup_fmap_Some in Hj as ([b' kb] & -> & Hj).
  simpl in *.
  assert (forall x k, (x, k) ∈ keyed ->
            exists eco, Storage.eco_score (Storage.sp_product x) = Some eco
                        /\ k = (Storage.recommendation_score x, eco)) as Hkey.
  { apply map_exn_Forall2 in Hkeys. clear -Hkeys.
    induction Hkeys as [|x [y ky] l l' Hxy _ IH]; intros z k Hz.
    - by apply elem_of_nil in Hz.
    - apply elem_of_cons in Hz as [[= -> ->]|Hz]; [|by apply IH].
      destruct (Storage.eco_score (Storage.sp_product x)) as [eco|] eqn:E;
        simpl in Hxy; [|done].
      injection Hxy as <- <-. by exists eco. }
  assert (forall n x k,
            Py.sort_reverse (fun x y => tuple_lt (snd x) (snd y)) keyed !! n = Some (x, k) ->
            (x, k) ∈ keyed) as Hin.
  { intros n x k Hn. rewrite <- (sort_reverse_perm (fun x y => tuple_lt (snd x) (snd y))).
    by eapply list_elem_of_lookup_2. }
  destruct (Hkey _ _ (Hin _ _ _ Hi)) as (ea' & Hea' & ->).
  destruct (Hkey _ _ (Hin _ _ _ Hj)) as (eb' & Heb' & ->).
  assert (ea' = ea) as -> by congruence. assert (eb' = eb) as -> by congruence.
  destruct (decide (i < j)%nat) as [|Hij]; [done|exfalso].
  destruct (decide (i = j)) as [->|Hne].
  - pose proof (eq_trans (eq_sym Hi) Hj) as Heq. injection Heq as _ _ Heq.
    rewrite Heq in He. lra.
  - assert (tuple_lt (Storage.recommendation_score b', eb)
                     (Storage.recommendation_score a', ea) = false) as Hba.
    { assert (StronglySorted
                (fun x y : Storage.scored_product * (Q * Q) =>
                   tuple_lt (snd x) (snd y) = false)
                (Py.sort_reverse (fun x y => tuple_lt (snd x) (snd y)) keyed)) as Hsorted.
      { apply (sort_reverse_sorted (fun x y : Storage.scored_product * (Q * Q) =>
                                      tuple_lt (snd x) (snd y))).
        - intros x y. apply tuple_lt_asym.
        - intros x y z. apply tuple_ge_trans. }
      assert (j < i)%nat as Hji by lia.
      exact (sorted_lookup _ _ j i _ _ Hsorted Hj Hi Hji). }
    revert Hba. unfold tuple_lt. simpl. py_compare; try done; lra.
Qed.

Lemma storage_any_item_false (k : Z) (items : list Storage.activity_item) :
  Storage.any_item_is k items = Return false ->
  forall item q, item ∈ items -> Storage.item_product item = Some q ->
                 Storage.id q <> Some k.
Proof.
  induction items as [|it items IH]; simpl; intros H item q Hin Hq Hid.
  - by apply elem_of_nil in Hin.
  - destruct (Storage.item_product it) as [q'|] eqn:Hit; simpl in H; [|done].
    destruct (Storage.id q') as [k'|] eqn:Hk'; simpl in H; [|done].
    destruct (k' =? k)%Z eqn:E; [done|].
    apply elem_of_cons in Hin as [->|Hin]; [|by eapply IH].
    assert (q' = q) as -> by congruence.
    assert (k' = k) as -> by congruence.
    by rewrite Z.eqb_refl in E.
Qed.

Lemma storage_in_activity_false (k : Z) (cart wish : list Storage.activity_item) :
  Storage._is_product_in_activity k cart wish = Return false ->
  forall item q, item ∈ cart ++ wish -> Storage.item_product item = Some q ->
                 Storage.id q <> Some k.
Proof.
  unfold Storage._is_product_in_activity.
  destruct (Storage.any_item_is k cart) as [[|]|] eqn:Hcart; simpl; [done| |done].
  destruct (Storage.any_item_is k wish) as [[|]|] eqn:Hwish; simpl; [done| |done].
  intros _ item q [Hin|Hin]%elem_of_app.
  - exact (storage_any_item_false k cart Hcart item q Hin).
  - exact (storage_any_item_false k wish Hwish item q Hin).
Qed.

Lemma storage_personalized_loop
    (profile : preferences) (age : Z) (gender : string)
    (cart wish : list Storage.activity_item) (candidates : list Storage.product)
    (acc out : list Storage.scored_product) :
  for_each (fun scored_products product =>
              try! product_id := dict_index "id" (Storage.id product) in
              try! skip := Storage._is_product_in_activity product_id cart wish in
              if skip then Return scored_products
              else
                try! score := Storage._calculate_personalized_score product profile age gender in
                if Py.lt 0 score
                then Return (scored_products ++ [ {| Storage.sp_product := product;
                                                     Storage.recommendation_score := score |} ])
                else Return scored_products)
           candidates acc = Return out ->
  forall e, e ∈ out ->
    e ∈ acc
    \/ exists k, Storage.id (Storage.sp_product e) = Some k
         /\ Storage._is_product_in_activity k cart wish = Return false.
Proof.
  revert acc. induction candidates as [|c cs IH]; intros acc; simpl.
  - intros [= ->] e He. by left.
  - destruct (Storage.id c) as [k|] eqn:Hid; simpl; [|done].
    destruct (Storage._is_product_in_activity k cart wish) as [[|]|] eqn:Hact;
      simpl; [by apply IH| |done].
    destruct (Storage._calculate_personalized_score c profile age gender) as [s|];
      simpl; [|done].
    destruct (Py.lt 0 s); [|by apply IH].
    intros H e He. destruct (IH _ H e He) as [Hacc|?]; [|by right].
    apply elem_of_app in Hacc as [?|Hnew]; [by left|].
    apply list_elem_of_singleton in Hnew as ->. right. by exists k.
Qed.

(** This engine too keeps out every identifier found in the cart or the
    wishlist. *)
Lemma storage_personalized_excludes_activity
    (self : Storage.RecommendationEngine) (user_id limit : Z)
    (out : list Storage.scored_product) (item : Storage.activity_item)
    (q : Storage.product) (k : Z) (e : Storage.scored_product) :
  Storage.get_personalized_recommendations self user_id limit = Return out ->
  item ∈ Storage.getCartItems (Storage.storage self) user_id
         ++ Storage.getWishlistItems (Storage.storage self) user_id ->
  Storage.item_product item = Some q ->
  Storage.id q = Some k ->
  e ∈ out ->
  Storage.id (Storage.sp_product e) <> Some k.
Proof.
  unfold Storage.get_personalized_recommendations.
  destruct (Storage.getUser _ _) as [u|].
  - destruct (Storage._extract_user_preferences _ _ _) as [profile|]; simpl; [|done].
    destruct (for_each _ _ _) as [scored|] eqn:Hloop; simpl; [|done].
    intros [= <-] Hitem Hq Hk He Hid.
    apply slice_to_elem_of in He. rewrite sort_reverse_perm in He.
    destruct (storage_personalized_loop _ _ _ _ _ _ _ _ Hloop e He) as [Hnil|(k' & Hk' & Hact)].
    + by apply elem_of_nil in Hnil.
    + assert (k' = k) as -> by congruence.
      exact (storage_in_activity_false k _ _ Hact item q Hitem Hq Hk).
  - intros [= <-] _ _ _ He. by apply elem_of_nil in He.
Qed.

Example storage_personalized_example :
  exists out,
    Storage.get_personalized_recommendations {| Storage.storage := Sample.store |} 7 5
    = Return out
    /\ map (fun e => Storage.id (Storage.sp_product e)) out = [Some 4%Z; Some 1%Z].
Proof. eexists. split; reflexivity. Qed.

Example storage_cold_start_example :
  exists out,
    Storage.get_cold_start_recommendations {| Storage.storage := Sample.store |} 30 "male" 2
    = Return out
    /\ map (fun e => Storage.id (Storage.sp_product e)) out = [Some 1%Z; Some 2%Z].
Proof. eexists. split; reflexivity. Qed.

End StorageVariant.

(** * Further properties of the two engines *)

(** ** Stability of the sort *)

Section Stability.
Context {A : Type} (key_lt : A -> A -> bool) (P : A -> bool).

(** [P] selects a class of items that no item of the class moves behind. *)
Hypothesis class_closed : forall x y, P x = true -> key_lt x y = true -> P y = false.

Lemma insert_desc_filter (x : A) (l : list A) :
  List.filter P (Py.insert_desc key_lt x l)
  = if P x then x :: List.filter P l else List.filter P l.
Proof.
  induction l as [|y l IH]; simpl; [done|].
  destruct (key_lt x y) eqn:Hxy; simpl.
  - rewrite IH. destruct (P x) eqn:Hx; [|done].
    by rewrite (class_closed x y Hx Hxy).
  - by destruct (P x).
Qed.

Lemma sort_reverse_filter (l : list A) :
  List.filter P (Py.sort_reverse key_lt l) = List.filter P l.
Proof.
  induction l as [|x l IH]; simpl; [done|].
  rewrite insert_desc_filter, IH. by destruct (P x).
Qed.

End Stability.

Lemma filter_slice_prefix {A} (P : A -> bool) (n : Z) (l : list A) :
  List.filter P (Py.slice_to n l) `prefix_of` List.filter P l.
Proof.
  assert (forall k, List.filter P (take k l) `prefix_of` List.filter P l) as Htake.
  { intros k. exists (List.filter P (drop k l)).
    by rewrite <- List.filter_app, take_drop. }
  unfold Py.slice_to. destruct (0 <=? n)%Z; apply Htake.
Qed.

(** ** _is_product_in_activity *)

Section Activity.
Import Service.

(** The test answers [true] exactly for the identifiers of the products
    wrapped in the cart and the wishlist. *)
Theorem in_activity_iff (k : Z) (cart wish : list activity_item) :
  _is_product_in_activity k cart wish = true
  <-> exists item q, item ∈ cart ++ wish /\ item_product item = Some q /\ id q = Some k.
Proof.
  split.
  - unfold _is_product_in_activity.
    assert (forall items,
      existsb (fun item => id_matches (id (dict_get (item_product item) empty_dict)) k) items = true ->
      exists item q, item ∈ items /\ item_product item = Some q /\ id q = Some k) as Hitems.
    { intros items (item & Hin & Hm)%existsb_exists.
      apply list_elem_of_In in Hin.
      destruct (item_product item) as [q|] eqn:Hq; simpl in Hm; [|done].
      destruct (id q) as [k'|] eqn:Hk; simpl in Hm; [|done].
      apply Z.eqb_eq in Hm as ->. by exists item, q. }
    destruct (existsb _ cart) eqn:Hc.
    + intros _. destruct (Hitems _ Hc) as (item & q & Hin & ?).
      exists item, q. split; [apply elem_of_app; by left|done].
    + destruct (existsb _ wish) eqn:Hw; [|done].
      intros _. destruct (Hitems _ Hw) as (item & q & Hin & ?).
      exists item, q. split; [apply elem_of_app; by right|done].
  - intros (item & q & Hin & Hq & Hk). by eapply in_activity_elem_of.
Qed.

End Activity.

(** ** Personalised ranking, in full *)

Section PersonalizedRanking.
Import Service Ranking.

(** The loop either meets a candidate without identifier and raises, or
    appends the admitted candidates in order. *)
Lemma personalized_loop_exact
    (user_data : user_data_t) (candidates : list product) (acc : list scored_product) :
  for_each (fun scored_products product =>
              try! product_id := dict_index "id" (id product) in
              if _is_product_in_activity product_id (cart_of user_data) (wishlist_of user_data)
              then Return scored_products
              else
                let score := _calculate_personalized_score product (profile_of user_data)
                               (age_of user_data) (gender_of user_data) in
                if Py.lt 0 score
                then Return (scored_products ++ [ {| sp_product := product; recommendation_score := score |} ])
                else Return scored_products)
           candidates acc
  = if forallb (fun p => match id p with Some _ => true | None => false end) candidates
    then Return (acc ++ map (fun p => Scored p (personal_score user_data p))
                            (List.filter (admitted user_data) candidates))
    else Raise (KeyError "id").
Proof.
  revert acc. induction candidates as [|c cs IH]; intros acc; simpl.
  - by rewrite app_nil_r.
  - unfold admitted at 1. unfold personal_score at 1.
    destruct (id c) as [k|] eqn:Hid; simpl; [|done].
    destruct (_is_product_in_activity k _ _); simpl; [apply IH|].
    destruct (Py.lt 0 _); simpl; rewrite IH; [|done].
    destruct (forallb _ cs); [|done]. by rewrite <- app_assoc.
Qed.

Lemma personalized_exact (self : RecommendationEngine) (user_data : user_data_t) (limit : Z) :
  get_personalized_recommendations self user_data limit
  = if forallb (fun p => match id p with Some _ => true | None => false end) (products self)
    then Return (Py.slice_to limit
                   (Py.sort_reverse
                      (fun x y => Py.lt (recommendation_score x) (recommendation_score y))
                      (scored_candidates self user_data)))
    else Raise (KeyError "id").
Proof.
  unfold get_personalized_recommendations.
  pose proof (personalized_loop_exact user_data (products self) []) as Hloop.
  unfold cart_of, wishlist_of, profile_of, age_of, gender_of in Hloop.
  unfold cart_of, wishlist_of in Hloop. rewrite Hloop.
  by destruct (forallb _ _).
Qed.

Lemma forallb_has_id (candidates : list product) :
  forallb (fun p => match id p with Some _ => true | None => false end) candidates = false
  <-> exists p, p ∈ candidates /\ id p = None.
Proof.
  induction candidates as [|c cs IH]; simpl.
  - split; [done|]. intros (p & Hp & _). by apply elem_of_nil in Hp.
  - destruct (id c) as [k|] eqn:Hid.
    + simpl. rewrite IH. split.
      * intros (p & Hp & ?). exists p. split; [by apply list_elem_of_further|done].
      * intros (p & [->|Hp]%elem_of_cons & Hnone); [congruence|by exists p].
    + simpl. split; [|done].
      intros _. exists c. split; [apply list_elem_of_here|done].
Qed.

(** A personalised ranking is returned only when every candidate has an
    ['id'], and a [KeyError] the call raises is the one for 'id', raised for
    a candidate without it. *)
Theorem personalized_needs_ids
    (self : RecommendationEngine) (user_data : user_data_t) (limit : Z) :
  (forall out, get_personalized_recommendations self user_data limit = Return out ->
               forall p, p ∈ products self -> is_Some (id p))
  /\ (forall key,
        get_personalized_recommendations self user_data limit = Raise (KeyError key) ->
        key = "id" /\ exists p, p ∈ products self /\ id p = None).
Proof.
  rewrite personalized_exact.
  destruct (forallb _ (products self)) eqn:Hall.
  - split; [|done]. intros out _ p Hp.
    destruct (id p) as [k|] eqn:Hid; [by eexists|].
    assert (forallb (fun p => match id p with Some _ => true | None => false end)
                    (products self) = false) by (apply forallb_has_id; eauto).
    congruence.
  - split; [done|]. intros key [= <-]. split; [done|]. by apply forallb_has_id.
Qed.

Lemma personalized_sorted (l : list scored_product) :
  StronglySorted
    (fun a b => Py.lt (recommendation_score a) (recommendation_score b) = false)
    (Py.sort_reverse (fun x y => Py.lt (recommendation_score x) (recommendation_score y)) l).
Proof.
  apply (sort_reverse_sorted
           (fun x y => Py.lt (recommendation_score x) (recommendation_score y))).
  - intros x y H. py_compare; try done; lra.
  - intros x y z H1 H2. py_compare; try done; lra.
Qed.

Lemma same_score_closed (s : Q) (x y : scored_product) :
  Py.eq (recommendation_score x) s = true ->
  Py.lt (recommendation_score x) (recommendation_score y) = true ->
  Py.eq (recommendation_score y) s = false.
Proof.
  intros Hx Hxy.
  destruct (eq_spec (recommendation_score x) s); [|done].
  destruct (lt_spec (recommendation_score x) (recommendation_score y)); [|done].
  destruct (eq_spec (recommendation_score y) s); [lra|done].
Qed.

(** Every entry of the personalised ranking is one of the candidates, is
    outside cart and wishlist, and carries its personalised score, which is
    above 0. *)
Theorem personalized_entries_scored
    (self : RecommendationEngine) (user_data : user_data_t) (limit : Z)
    (out : list scored_product) (e : scored_product) :
  get_personalized_recommendations self user_data limit = Return out ->
  e ∈ out ->
  sp_product e ∈ products self
  /\ recommendation_score e = personal_score user_data (sp_product e)
  /\ 0 < recommendation_score e.
Proof.
  rewrite personalized_exact. destruct (forallb _ _); [|done].
  intros [= <-] He. apply slice_to_elem_of in He. rewrite sort_reverse_perm in He.
  unfold scored_candidates in He. apply list_elem_of_In, in_map_iff in He.
  destruct He as (p & <- & Hp). apply filter_In in Hp as [Hp Hadm]. simpl.
  split; [by apply list_elem_of_In|]. split; [done|].
  unfold admitted in Hadm. destruct (id p); [|done].
  apply andb_true_iff in Hadm as [_ Hpos]. by destruct (lt_spec 0 (personal_score user_data p)).
Qed.

(** The personalised ranking is in descending order of score. *)
Theorem personalized_descending
    (self : RecommendationEngine) (user_data : user_data_t) (limit : Z)
    (out : list scored_product) (i j : nat) (a b : scored_product) :
  get_personalized_recommendations self user_data limit = Return out ->
  out !! i = Some a -> out !! j = Some b -> (i < j)%nat ->
  recommendation_score b <= recommendation_score a.
Proof.
  rewrite personalized_exact. destruct (forallb _ _); [|done].
  intros [= <-] Hi%slice_to_lookup Hj%slice_to_lookup Hij.
  pose proof (sorted_lookup _ _ i j a b (personalized_sorted _) Hi Hj Hij) as H.
  simpl in H. py_compare; try done; lra.
Qed.

(** Entries with equal scores keep the order of the candidate list: the
    entries of the ranking that carry a score [s] are the first of the
    admitted candidates that carry it, in candidate order. *)
Theorem personalized_ties_keep_order
    (self : RecommendationEngine) (user_data : user_data_t) (limit : Z)
    (out : list scored_product) (s : Q) :
  get_personalized_recommendations self user_data limit = Return out ->
  with_score s out `prefix_of` with_score s (scored_candidates self user_data).
Proof.
  rewrite personalized_exact. destruct (forallb _ _); [|done].
  intros [= <-]. unfold with_score.
  rewrite <- (sort_reverse_filter
                (fun x y => Py.lt (recommendation_score x) (recommendation_score y))
                (fun e => Py.eq (recommendation_score e) s)
                (same_score_closed s)
                (scored_candidates self user_data)).
  apply filter_slice_prefix.
Qed.

(** With a limit that is not negative the ranking has at most [limit]
    entries; with a limit that covers all admitted candidates it lists each
    of them once. *)
Theorem personalized_length
    (self : RecommendationEngine) (user_data : user_data_t) (limit : Z)
    (out : list scored_product) :
  get_personalized_recommendations self user_data limit = Return out ->
  (0 <= limit)%Z ->
  (Z.of_nat (length out) <= limit)%Z
  /\ ((Z.of_nat (length (scored_candidates self user_data)) <= limit)%Z ->
      out ≡ₚ scored_candidates self user_data).
Proof.
  rewrite personalized_exact. destruct (forallb _ _); [|done].
  intros [= <-] Hlimit. split; [by apply slice_to_length|].
  intros Hall. unfold Py.slice_to.
  destruct (0 <=? limit)%Z eqn:E; [|lia].
  rewrite take_ge; [apply sort_reverse_perm|].
  rewrite sort_reverse_length. lia.
Qed.

Lemma personalized_entries_scored_witness :
  exists out e,
    get_personalized_recommendations Sample.engine Sample.shopper 5 = Return out
    /\ e ∈ out
    /\ sp_product e ∈ products Sample.engine
    /\ recommendation_score e = personal_score Sample.shopper (sp_product e)
    /\ 0 < recommendation_score e.
Proof.
  eexists _, _. split; [reflexivity|]. split; [apply list_elem_of_here|].
  eapply (personalized_entries_scored Sample.engine Sample.shopper 5).
  - reflexivity.
  - apply list_elem_of_here.
Defined.

Lemma personalized_descending_witness :
  exists out a b,
    get_personalized_recommendations Twins.engine Sample.shopper 5 = Return out
    /\ out !! 0%nat = Some a /\ out !! 2%nat = Some b
    /\ recommendation_score b <= recommendation_score a.
Proof.
  eexists _, _, _. split; [reflexivity|]. split; [reflexivity|]. split; [reflexivity|].
  eapply (personalized_descending Twins.engine Sample.shopper 5 _ 0 2).
  - reflexivity.
  - reflexivity.
  - reflexivity.
  - lia.
Defined.

Lemma personalized_ties_keep_order_witness :
  exists out,
    get_personalized_recommendations Twins.engine Sample.shopper 5 = Return out
    /\ map (fun e => id (sp_product e)) out = [Some 1%Z; Some 5%Z; Some 3%Z]
    /\ with_score 58 out `prefix_of` with_score 58 (scored_candidates Twins.engine Sample.shopper).
Proof.
  eexists. split; [reflexivity|]. split; [reflexivity|].
  apply (personalized_ties_keep_order Twins.engine Sample.shopper 5).
  reflexivity.
Defined.

Lemma personalized_length_witness :
  exists out,
    get_personalized_recommendations Sample.engine Sample.shopper 5 = Return out
    /\ (Z.of_nat (length out) <= 5)%Z
    /\ out ≡ₚ scored_candidates Sample.engine Sample.shopper.
Proof.
  eexists. split; [reflexivity|].
  destruct (personalized_length Sample.engine Sample.shopper 5 _ eq_refl) as [Hle Hall];
    [lia|].
  split; [exact Hle|]. apply Hall. vm_compute. discriminate.
Defined.

End PersonalizedRanking.

(** ** Absent fields, in both engines *)

Section AbsentFields.
Import Service Ranking.

Lemma forallb_with_defaults (candidates : list product) :
  forallb (fun p => match id p with Some _ => true | None => false end)
          (map Spec.with_defaults candidates)
  = forallb (fun p => match id p with Some _ => true | None => false end) candidates.
Proof. induction candidates as [|c cs IH]; simpl; [done|]. by rewrite IH. Qed.

Lemma scored_candidates_with_defaults
    (self : RecommendationEngine) (user_data : user_data_t) :
  scored_candidates {| products := map Spec.with_defaults (products self) |} user_data
  = map Spec.scored_with_defaults (scored_candidates self user_data).
Proof.
  unfold scored_candidates. cbn [products]. rewrite filter_map, !map_map.
  reflexivity.
Qed.

(** The personalised ranking of records with absent fields is the ranking
    of the records that hold the defaults. *)
Lemma personalized_ranking_with_defaults
    (self : RecommendationEngine) (user_data : user_data_t) (limit : Z) :
  get_personalized_recommendations
    {| products := map Spec.with_defaults (products self) |} user_data limit
  = match get_personalized_recommendations self user_data limit with
    | Return out => Return (map Spec.scored_with_defaults out)
    | Raise e => Raise e
    end.
Proof.
  rewrite !personalized_exact. cbn [products]. rewrite forallb_with_defaults.
  destruct (forallb _ (products self)); [|done]. f_equal.
  rewrite slice_to_map.
  rewrite (sort_reverse_map Spec.scored_with_defaults
             (fun x y => Py.lt (recommendation_score x) (recommendation_score y))
             (fun x y => Py.lt (recommendation_score x) (recommendation_score y)));
    [|by intros [x ?] [y ?]].
  by rewrite scored_candidates_with_defaults.
Qed.

Lemma personalized_key_error
    (self : RecommendationEngine) (user_data : user_data_t) (limit : Z) (key : string) :
  get_personalized_recommendations self user_data limit = Raise (KeyError key) ->
  key = "id" /\ exists p, p ∈ products self /\ id p = None.
Proof.
  rewrite personalized_exact.
  destruct (forallb _ (products self)) eqn:Hall; [done|].
  intros [= <-]. split; [done|]. by apply forallb_has_id.
Qed.

(** C4, as the code has it: in the stand-alone engine
    (recommendation_service.py) an absent category, title, text, price or
    eco-score is read as its default ("" for category, title and text, 0 for
    price and eco-score) and a cart or wishlist item without product is
    skipped.  Demographic score, personalised score, extracted profile,
    activity test, cold-start ranking and personalised ranking give for a
    record with absent fields what they give for the record that holds the
    defaults, and the only [KeyError] of the personalised ranking is the one
    for a candidate without ['id']. *)
Theorem absent_fields_take_defaults
    (p : product) (profile : preferences) (age : Z) (gender : string)
    (cart wish : list activity_item) (viewed : list product)
    (self : RecommendationEngine) (user_data : user_data_t) (limit k : Z) :
  _calculate_demographic_score p age gender
    = _calculate_demographic_score (Spec.with_defaults p) age gender
  /\ _calculate_personalized_score p profile age gender
    = _calculate_personalized_score (Spec.with_defaults p) profile age gender
  /\ _extract_user_preferences cart wish viewed
    = _extract_user_preferences (map Spec.item_with_defaults cart)
        (map Spec.item_with_defaults wish) (map Spec.with_defaults viewed)
  /\ _extract_user_preferences cart wish viewed
    = _extract_user_preferences (List.filter Spec.has_product cart)
        (List.filter Spec.has_product wish) viewed
  /\ _is_product_in_activity k cart wish
    = _is_product_in_activity k (List.filter Spec.has_product cart)
        (List.filter Spec.has_product wish)
  /\ map Spec.scored_with_defaults (get_cold_start_recommendations self age gender limit)
    = get_cold_start_recommendations
        {| products := map Spec.with_defaults (products self) |} age gender limit
  /\ get_personalized_recommendations
       {| products := map Spec.with_defaults (products self) |} user_data limit
    = match get_personalized_recommendations self user_data limit with
      | Return out => Return (map Spec.scored_with_defaults out)
      | Raise e => Raise e
      end
  /\ (forall key,
        get_personalized_recommendations self user_data limit = Raise (KeyError key) ->
        key = "id").
Proof.
  split; [by rewrite demographic_with_defaults|].
  split; [by rewrite personalized_with_defaults|].
  split.
  { rewrite (extract_pool (map _ cart)), pool_with_defaults, extract_with_defaults.
    apply extract_pool. }
  split.
  { rewrite (extract_pool (List.filter _ cart)), pool_has_product. apply extract_pool. }
  split; [by rewrite in_activity_has_product|].
  split; [by rewrite cold_start_with_defaults|].
  split; [apply personalized_ranking_with_defaults|].
  intros key Hkey. by destruct (personalized_key_error _ _ _ _ Hkey).
Qed.

Lemma absent_fields_take_defaults_witness :
  _calculate_demographic_score Sample.mug 30 "female"
    = _calculate_demographic_score (Spec.with_defaults Sample.mug) 30 "female"
  /\ get_personalized_recommendations
       {| products := map Spec.with_defaults (products Sample.engine) |} Sample.shopper 5
     = match get_personalized_recommendations Sample.engine Sample.shopper 5 with
       | Return out => Return (map Spec.scored_with_defaults out)
       | Raise e => Raise e
       end.
Proof.
  destruct (absent_fields_take_defaults Sample.mug initial_preferences 30 "female"
              [] [] [] Sample.engine Sample.shopper 5 0)
    as (Hscore & _ & _ & _ & _ & _ & Hranking & _).
  split; [exact Hscore|exact Hranking].
Defined.

(** C4 as claimed does not hold of the storage-backed engine
    (recommendations.py): a row without category makes its demographic
    score raise, a row without price makes its personalised score and its
    extraction raise, and an item without product makes its extraction
    raise. *)
Lemma storage_raises_on_absent_fields :
  Storage._calculate_demographic_score (Sample.row empty_dict) 30 "female"
    = Raise (KeyError "category")
  /\ Storage._calculate_personalized_score (Sample.row Sample.mug)
       initial_preferences 30 "female" = Raise (KeyError "price")
  /\ Storage._extract_user_preferences [] [] [Sample.row Sample.mug]
     = Raise (KeyError "price")
  /\ Storage._extract_user_preferences [ {| Storage.item_product := None |} ] [] []
     = Raise (KeyError "product")
  /\ (forall v, Storage._calculate_demographic_score (Sample.row empty_dict) 30 "female"
                 <> Return v).
Proof. repeat split; done. Qed.

End AbsentFields.

(** ** Bounds of the demographic score *)

Section DemographicBounds.
Import Service.

Lemma scores_nonneg_helper (p : product) (age : Z) (gender : string) :
  0 <= _calculate_demographic_score p age gender
  /\ forall profile, 0 <= _calculate_personalized_score p profile age gender.
Proof. split; [|intros profile]; apply max0_nonneg. Qed.

Lemma bonus_range (applies : bool) (points : Q) :
  0 <= points -> 0 <= Spec.bonus applies points <= points.
Proof. intros H. unfold Spec.bonus. destruct applies; lra. Qed.

Lemma age_bonus_range (p : product) (age : Z) : 0 <= Spec.age_bonus p age <= 20.
Proof.
  unfold Spec.age_bonus.
  repeat case_match;
    repeat match goal with
    | |- context [Spec.bonus ?b ?w] =>
        let H := fresh in
        assert (0 <= Spec.bonus b w <= w) as H by (apply bonus_range; lra);
        generalize dependent (Spec.bonus b w); intros
    end; lra.
Qed.

Lemma gender_bonus_range (p : product) (gender : string) :
  0 <= Spec.gender_bonus p gender <= 8.
Proof.
  unfold Spec.gender_bonus.
  repeat case_match;
    repeat match goal with
    | |- context [Spec.bonus ?b ?w] =>
        let H := fresh in
        assert (0 <= Spec.bonus b w <= w) as H by (apply bonus_range; lra);
        generalize dependent (Spec.bonus b w); intros
    end; lra.
Qed.


(** No bonus lowers the score: a product scores at least what it scores
    without category, title and text, for the same age and gender. *)
Theorem demographic_bonuses_never_lower (p : product) (age : Z) (gender : string) :
  _calculate_demographic_score (Bare.bare p) age gender
  <= _calculate_demographic_score p age gender.
Proof.
  rewrite !demographic_score_rule. unfold Spec.demographic_score.
  pose proof (age_bonus_range p age). pose proof (gender_bonus_range p gender).
  assert (Spec.age_bonus (Bare.bare p) age == 0) as ->.
  { unfold Spec.age_bonus. by repeat case_match. }
  assert (Spec.gender_bonus (Bare.bare p) gender == 0) as ->.
  { unfold Spec.gender_bonus. by repeat case_match. }
  change (Spec.eco_score (Bare.bare p)) with (Spec.eco_score p).
  apply Q.max_le_compat_l. lra.
Qed.


End DemographicBounds.

(** ** Cold-start ranking, in full *)

Section ColdStartRanking.
Import Service.

(** Every entry of the cold-start ranking is one of the candidates and
    carries its demographic score, which is above 0. *)
Theorem cold_start_entries
    (self : RecommendationEngine) (age : Z) (gender : string) (limit : Z)
    (e : scored_product) :
  e ∈ get_cold_start_recommendations self age gender limit ->
  sp_product e ∈ products self
  /\ recommendation_score e = _calculate_demographic_score (sp_product e) age gender
  /\ 0 < recommendation_score e.
Proof.
  rewrite cold_start_unfold. intros He%slice_to_elem_of.
  rewrite sort_reverse_perm in He. apply list_elem_of_In, in_map_iff in He.
  destruct He as (p & <- & Hp). apply filter_In in Hp as [Hp Hpos]. simpl.
  split; [by apply list_elem_of_In|]. split; [done|].
  by destruct (lt_spec 0 (_calculate_demographic_score p age gender)).
Qed.

Lemma cold_start_entries_witness :
  exists e,
    e ∈ get_cold_start_recommendations Sample.engine 30 "female" 2
    /\ sp_product e ∈ products Sample.engine
    /\ recommendation_score e = _calculate_demographic_score (sp_product e) 30 "female"
    /\ 0 < recommendation_score e.
Proof.
  eexists. split; [apply list_elem_of_here|].
  apply (cold_start_entries Sample.engine 30 "female" 2). apply list_elem_of_here.
Defined.

(** The cold-start ranking is in descending lexicographic order of
    (recommendation score, eco-score). *)
Theorem cold_start_descending
    (self : RecommendationEngine) (age : Z) (gender : string) (limit : Z)
    (i j : nat) (a b : scored_product) :
  get_cold_start_recommendations self age gender limit !! i = Some a ->
  get_cold_start_recommendations self age gender limit !! j = Some b ->
  (i < j)%nat ->
  recommendation_score b < recommendation_score a
  \/ (recommendation_score b == recommendation_score a
      /\ Spec.eco_score (sp_product b) <= Spec.eco_score (sp_product a)).
Proof.
  rewrite cold_start_unfold. intros Hi%slice_to_lookup Hj%slice_to_lookup Hij.
  pose proof (sorted_lookup _ _ i j a b (cold_start_sorted _) Hi Hj Hij) as H.
  revert H. unfold tuple_lt, cold_start_key, Spec.eco_score. simpl.
  py_compare; intros; try done; lra.
Qed.

Lemma cold_start_descending_witness :
  exists a b,
    get_cold_start_recommendations Sample.engine 30 "female" 4 !! 0%nat = Some a
    /\ get_cold_start_recommendations Sample.engine 30 "female" 4 !! 3%nat = Some b
    /\ (recommendation_score b < recommendation_score a
        \/ (recommendation_score b == recommendation_score a
            /\ Spec.eco_score (sp_product b) <= Spec.eco_score (sp_product a))).
Proof.
  eexists _, _. split; [reflexivity|]. split; [reflexivity|].
  apply (cold_start_descending Sample.engine 30 "female" 4 0 3).
  - reflexivity.
  - reflexivity.
  - lia.
Defined.



End ColdStartRanking.

(** ** The extracted profile *)

Section ProfileFacts.
Import Service Profile.

Lemma count_categories (c : string) (l : list product) (cats : gmap string Z) :
  foldl (fun cats product =>
           let category := dict_get (category product) "" in
           <[category := (dict_get (cats !! category) 0 + 1)%Z]> cats) cats l !! c
  = match category_count c l with
    | O => cats !! c
    | S _ => Some (dict_get (cats !! c) 0 + Z.of_nat (category_count c l))%Z
    end.
Proof.
  unfold category_count. revert cats.
  induction l as [|p l IH]; intros cats; simpl; [done|].
  rewrite IH. unfold Spec.category_of.
  destruct (String.eqb_spec (dict_get (category p) "") c) as [->|Hne]; simpl.
  - rewrite lookup_insert_eq. simpl.
    destruct (length _); f_equal; lia.
  - by rewrite lookup_insert_ne.
Qed.

Lemma affinity_lookup
    (cart wish : list activity_item) (viewed : list product) (c : string) :
  preferred_categories (_extract_user_preferences cart wish viewed) !! c
  = match category_count c (Spec.pool cart wish viewed) with
    | O => None
    | S n => Some (Z.of_nat (S n))
    end.
Proof.
  unfold _extract_user_preferences. fold (Spec.pool cart wish viewed).
  destruct (Spec.pool cart wish viewed) as [|p l] eqn:E; [done|].
  cbv zeta. cbn [preferred_categories]. rewrite count_categories.
  simpl (preferred_categories initial_preferences).
  rewrite lookup_empty. simpl. by destruct (category_count c (p :: l)).
Qed.

(** The affinity of a category is the number of activity products that
    carry it; a category no activity product carries is no key. *)
Theorem category_affinity_counts
    (cart wish : list activity_item) (viewed : list product) (c : string) :
  preferred_categories (_extract_user_preferences cart wish viewed) !! c
  = match category_count c (Spec.pool cart wish viewed) with
    | O => None
    | S n => Some (Z.of_nat (S n))
    end.
Proof. apply affinity_lookup. Qed.

Lemma category_affinity_counts_example :
  preferred_categories
    (_extract_user_preferences [ {| item_product := Some Sample.lamp |} ] []
       [Sample.lamp; Sample.mug]) !! "lighting" = Some 2%Z.
Proof. rewrite affinity_lookup. reflexivity. Qed.

Lemma eco_scores_read (l : list product) :
  map (fun p => dict_get (ecoScore p) 0) (List.filter (fun p => truthy (ecoScore p)) l)
  = nonzero_eco_scores l.
Proof.
  unfold nonzero_eco_scores. induction l as [|p l IH]; simpl; [done|].
  destruct (ecoScore p) as [x|] eqn:E; simpl; [|exact IH].
  unfold Py.eq. destruct (Qeq_bool x 0); simpl; [exact IH|].
  rewrite E. simpl. f_equal. exact IH.
Qed.

Lemma extract_threshold (cart wish : list activity_item) (viewed : list product) :
  eco_score_threshold (_extract_user_preferences cart wish viewed)
  = match nonzero_eco_scores (Spec.pool cart wish viewed) with
    | [] => 0
    | x :: xs =>
        Py.sum (x :: xs) / inject_Z (Z.of_nat (length (x :: xs))) * 0.8
    end.
Proof.
  unfold _extract_user_preferences. fold (Spec.pool cart wish viewed).
  destruct (Spec.pool cart wish viewed) as [|p l] eqn:E; [done|].
  cbv zeta. cbn [eco_score_threshold]. rewrite eco_scores_read.
  by destruct (nonzero_eco_scores (p :: l)).
Qed.

Lemma sum_from_nonneg (xs : list Q) (a : Q) :
  Forall (fun x => 0 <= x) xs -> a <= foldl Qplus a xs.
Proof.
  intros Hxs. revert a. induction Hxs as [|x xs Hx _ IH]; intros a; cbn [foldl].
  - lra.
  - specialize (IH (a + x)). lra.
Qed.

(** The eco-score threshold is never negative unless an eco-score of the
    activity is. *)
Theorem threshold_never_negative
    (cart wish : list activity_item) (viewed : list product) :
  Forall (fun x => 0 <= x) (nonzero_eco_scores (Spec.pool cart wish viewed)) ->
  0 <= eco_score_threshold (_extract_user_preferences cart wish viewed).
Proof.
  intros Hall. rewrite extract_threshold.
  destruct (nonzero_eco_scores (Spec.pool cart wish viewed)) as [|x xs]; [lra|].
  pose proof (sum_from_nonneg (x :: xs) 0 Hall) as Hsum.
  fold (Py.sum (x :: xs)) in Hsum.
  assert (0 < inject_Z (Z.of_nat (length (x :: xs)))) as Hn.
  { change 0 with (inject_Z 0). rewrite <- Zlt_Qlt. simpl length. lia. }
  generalize dependent (inject_Z (Z.of_nat (length (x :: xs)))). intros n Hn.
  assert (0 <= Py.sum (x :: xs) / n) as H1 by (apply Qle_shift_div_l; lra).
  lra.
Qed.

Lemma threshold_never_negative_witness :
  0 <= eco_score_threshold
         (_extract_user_preferences [ {| item_product := Some Sample.planter |} ] []
            [Sample.mug; Sample.lamp]).
Proof.
  apply threshold_never_negative. repeat constructor; vm_compute; discriminate.
Defined.

(** When no activity product has an eco-score other than 0, the threshold
    stays 0 and every product passes the eco-score test. *)
Lemma threshold_without_eco_scores
    (cart wish : list activity_item) (viewed : list product) :
  nonzero_eco_scores (Spec.pool cart wish viewed) = [] ->
  eco_score_threshold (_extract_user_preferences cart wish viewed) = 0.
Proof. intros H. by rewrite extract_threshold, H. Qed.




Lemma lower_char_not_upper (c : ascii) : Py.is_upper (Py.lower_char c) = false.
Proof. by destruct c as [[] [] [] [] [] [] [] []]. Qed.

Lemma lower_no_upper (s : string) :
  all_chars (fun c => negb (Py.is_upper c)) (Py.lower s) = true.
Proof.
  induction s as [|c s IH]; [done|]. simpl. by rewrite lower_char_not_upper, IH.
Qed.

Lemma lower_fixes_lower_case (w : string) :
  all_chars (fun c => negb (Py.is_upper c)) w = true -> Py.lower w = w.
Proof.
  induction w as [|c w IH]; [done|]. simpl.
  intros [Hc Hw]%andb_true_iff. rewrite IH by done.
  unfold Py.lower_char. by destruct (Py.is_upper c).
Qed.




Lemma keywords_example :
  keywords (_extract_user_preferences [] []
              [ {| id := None; category := None; title := None;
                   text := Some "  Solar  CHARGER for Travel "; price := None;
                   ecoScore := None |} ])
  = ["solar"; "charger"; "for"; "travel"].
Proof. reflexivity. Qed.

Lemma priced_activity_in_range
    (cart wish : list activity_item) (viewed : list product) (p : product) (x : Q) :
  Forall (fun y => 0 <= y) (Spec.nonzero_prices (Spec.pool cart wish viewed)) ->
  p ∈ Spec.pool cart wish viewed ->
  price p = Some x ->
  ~ x == 0 ->
  Spec.price_in_range (_extract_user_preferences cart wish viewed) x = true.
Proof.
  intros Hpos Hp Hx Hnz. unfold Spec.price_in_range.
  rewrite extract_price_range.
  assert (x ∈ Spec.nonzero_prices (Spec.pool cart wish viewed)) as Hin.
  { apply nonzero_prices_elem_of. by exists p. }
  destruct (Spec.nonzero_prices (Spec.pool cart wish viewed)) as [|y ys] eqn:E;
    cbn [pr_min pr_max].
  - by apply elem_of_nil in Hin.
  - destruct (min_from_least y ys) as [Hlo Hleast].
    destruct (max_from_greatest y ys) as [Hhi Hgreatest].
    rewrite Forall_forall in Hpos.
    pose proof (Hpos _ Hlo). pose proof (Hpos _ Hhi).
    pose proof (Hleast _ Hin). pose proof (Hgreatest _ Hin).
    apply andb_true_iff. split; apply Qle_bool_iff; lra.
Qed.

(** When no price is negative, every activity product whose price is not 0
    lies inside the extracted price range. *)
Theorem activity_price_in_range
    (cart wish : list activity_item) (viewed : list product) (p : product) (x : Q) :
  Forall (fun y => 0 <= y) (Spec.nonzero_prices (Spec.pool cart wish viewed)) ->
  p ∈ Spec.pool cart wish viewed ->
  price p = Some x ->
  ~ x == 0 ->
  Spec.price_in_range (_extract_user_preferences cart wish viewed) x = true.
Proof. apply priced_activity_in_range. Qed.

Lemma activity_price_in_range_witness :
  Spec.price_in_range
    (_extract_user_preferences [ {| item_product := Some Sample.planter |} ] []
       [Sample.sticker; Sample.lamp]) 25 = true.
Proof.
  apply (activity_price_in_range _ _ _ Sample.lamp).
  - repeat constructor; vm_compute; discriminate.
  - do 2 apply list_elem_of_further. apply list_elem_of_here.
  - reflexivity.
  - vm_compute. discriminate.
Defined.

(** A free product of the activity is outside the range as soon as the
    activity holds a priced one, and so is a product with a negative price
    when it stands alone. *)
Lemma price_range_edges :
  Spec.price_in_range
    (_extract_user_preferences [] [] [Sample.sticker; Sample.lamp]) 0 = false
  /\ Spec.price_in_range
       (_extract_user_preferences [] []
          [ {| id := None; category := None; title := None; text := None;
               price := Some (-10); ecoScore := None |} ]) (-10) = false.
Proof. split; reflexivity. Qed.

Lemma max0_ge (x : Q) : x <= Py.max0 x.
Proof. unfold Py.max0. py_compare; lra. Qed.

(** Scoring against the profile drawn from one's own activity: a product of
    that activity with a price other than 0 scores at least 28, 8 for its
    category and 20 for its price (no price being negative). *)
Theorem activity_product_scores_28
    (cart wish : list activity_item) (viewed : list product) (p : product) (x : Q)
    (age : Z) (gender : string) :
  Forall (fun y => 0 <= y) (Spec.nonzero_prices (Spec.pool cart wish viewed)) ->
  p ∈ Spec.pool cart wish viewed ->
  price p = Some x ->
  ~ x == 0 ->
  28 <= _calculate_personalized_score p (_extract_user_preferences cart wish viewed)
          age gender.
Proof.
  intros Hpos Hp Hx Hnz.
  pose proof (priced_activity_in_range cart wish viewed p x Hpos Hp Hx Hnz) as Hrange.
  pose proof (affinity_lookup cart wish viewed (Spec.category_of p)) as Hcat.
  assert (category_count (Spec.category_of p) (Spec.pool cart wish viewed) <> O) as Hcount.
  { unfold category_count. intros Hzero. apply length_zero_iff_nil in Hzero.
    assert (In p (List.filter
                    (fun q => String.eqb (Spec.category_of q) (Spec.category_of p))
                    (Spec.pool cart wish viewed))) as Hin.
    { apply filter_In. split; [by apply list_elem_of_In|apply String.eqb_refl]. }
    by rewrite Hzero in Hin. }
  destruct (category_count _ _) as [|n]; [done|].
  unfold _calculate_personalized_score.
  fold (Spec.category_of p). rewrite Hcat.
  unfold Spec.price_in_range in Hrange. unfold Py.le.
  rewrite Hx. cbn [dict_get]. rewrite Hrange.
  pose proof (proj1 (scores_nonneg_helper p age gender)) as Hd.
  match goal with |- _ <= Py.max0 ?s => apply Qle_trans with s; [|apply max0_ge] end.
  assert (1 <= inject_Z (Z.of_nat (S n))) as Hn.
  { change 1 with (inject_Z 1). rewrite <- Zle_Qle. lia. }
  assert (0 <= inject_Z (Z.of_nat (length
            (List.filter (fun keyword => Py.contains keyword
                                           (Py.lower (dict_get (text p) "")))
               (keywords (_extract_user_preferences cart wish viewed)))))) as Hk.
  { change 0 with (inject_Z 0). rewrite <- Zle_Qle. lia. }
  rewrite inject_Z_mult. change (inject_Z 8) with 8.
  destruct (Qle_bool _ (dict_get (ecoScore p) 0)); lra.
Qed.

Lemma activity_product_scores_28_witness :
  28 <= _calculate_personalized_score Sample.lamp
          (_extract_user_preferences [ {| item_product := Some Sample.planter |} ] []
             [Sample.sticker; Sample.lamp]) 30 "female".
Proof.
  apply (activity_product_scores_28 _ _ _ Sample.lamp 25).
  - repeat constructor; vm_compute; discriminate.
  - do 2 apply list_elem_of_further. apply list_elem_of_here.
  - reflexivity.
  - vm_compute. discriminate.
Defined.

End ProfileFacts.

(** ** The entry point *)

Section EntryPoint.
Import Service Cli.

Lemma cold_start_entry
    (self : RecommendationEngine) (age : Z) (gender : string) (limit : Z)
    (e : scored_product) :
  e ∈ get_cold_start_recommendations self age gender limit ->
  sp_product e ∈ products self /\ 0 < recommendation_score e.
Proof.
  rewrite cold_start_unfold. intros He%slice_to_elem_of.
  rewrite sort_reverse_perm in He. apply list_elem_of_In, in_map_iff in He.
  destruct He as (p & <- & Hp). apply filter_In in Hp as [Hp Hpos]. simpl.
  split; [by apply list_elem_of_In|].
  by destruct (lt_spec 0 (_calculate_demographic_score p age gender)).
Qed.

Lemma personalized_entry
    (self : RecommendationEngine) (user_data : user_data_t) (limit : Z)
    (out : list scored_product) (e : scored_product) :
  get_personalized_recommendations self user_data limit = Return out ->
  e ∈ out ->
  sp_product e ∈ products self /\ 0 < recommendation_score e.
Proof.
  intros Hout He.
  destruct (personalized_entries _ _ _ _ _ Hout He) as (k & ? & _ & _ & ?). done.
Qed.

Lemma personalized_at_most_limit
    (self : RecommendationEngine) (user_data : user_data_t) (limit : Z)
    (out : list scored_product) :
  get_personalized_recommendations self user_data limit = Return out ->
  (0 <= limit)%Z -> (Z.of_nat (length out) <= limit)%Z.
Proof.
  rewrite personalized_exact. destruct (forallb _ _); [|done].
  intros [= <-] Hlimit. by apply slice_to_length.
Qed.

(** The ways of [main] with the keys of the envelope: without ['products']
    it fails with [KeyError('products')]; with products but without ['type']
    it fails with [KeyError('type')]; a type that is neither "cold_start" nor
    "personalized" prints the empty list; a "personalized" request with a
    product without ['id'] prints nothing; and a [KeyError] is always the
    one of a missing ['products'], ['type'] or ['id']. *)
Theorem main_and_missing_keys (input_data : input_data_t) :
  (in_products input_data = None -> main input_data = Failed (KeyError "products"))
  /\ (is_Some (in_products input_data) -> in_type input_data = None ->
      main input_data = Failed (KeyError "type"))
  /\ (forall t, is_Some (in_products input_data) -> in_type input_data = Some t ->
                t <> "cold_start" -> t <> "personalized" ->
                main input_data = Printed [])
  /\ (forall candidates p,
        in_products input_data = Some candidates ->
        in_type input_data = Some "personalized" ->
        p ∈ candidates -> id p = None ->
        forall out, main input_data <> Printed out)
  /\ (forall key, main input_data = Failed (KeyError key) ->
        (key = "products" /\ in_products input_data = None)
        \/ (key = "type" /\ in_type input_data = None)
        \/ (key = "id" /\ in_type input_data = Some "personalized"
            /\ exists candidates p,
                 in_products input_data = Some candidates
                 /\ p ∈ candidates /\ id p = None)).
Proof.
  unfold main.
  destruct (in_products input_data) as [candidates|] eqn:Hp; cbn [bind dict_index].
  2: { split; [done|]. split; [by intros [? ?]|]. split; [by intros t [? ?]|].
       split; [done|]. intros key [= <-]. by left. }
  destruct (in_type input_data) as [t|] eqn:Ht; cbn [bind dict_index].
  2: { split; [done|]. split; [done|]. split; [done|]. split; [done|].
       intros key [= <-]. right. by left. }
  split; [done|]. split; [done|].
  destruct (String.eqb_spec t "cold_start") as [->|Hcold].
  { split; [by intros t _ [= <-]|]. split; [|done].
    by intros cs p _ [=]. }
  destruct (String.eqb_spec t "personalized") as [->|Hpers].
  2: { split; [done|]. split; [|done]. intros cs p _ [= ->]. done. }
  split; [by intros t _ [= <-]|].
  rewrite personalized_exact. cbn [products].
  destruct (forallb _ candidates) eqn:Hall.
  - split; [|done]. intros cs p [= <-] _ Hin Hnone.
    assert (forallb (fun p => match id p with Some _ => true | None => false end)
                    candidates = false) by (apply forallb_has_id; eauto).
    congruence.
  - split; [done|]. intros key [= <-]. right. right.
    apply forallb_has_id in Hall as (p & Hin & Hnone).
    split; [done|]. split; [done|]. by exists candidates, p.
Qed.

(** What [main] prints is sound: every printed entry is one of the products
    of the envelope with a score above 0, and there are at most [limit]
    entries, 20 when the envelope names no limit. *)
Theorem main_prints_input_products
    (input_data : input_data_t) (out : list scored_product) :
  main input_data = Printed out ->
  (forall e, e ∈ out ->
     exists candidates, in_products input_data = Some candidates
                        /\ sp_product e ∈ candidates
                        /\ 0 < recommendation_score e)
  /\ ((0 <= dict_get (in_limit input_data) 20)%Z ->
      (Z.of_nat (length out) <= dict_get (in_limit input_data) 20)%Z).
Proof.
  unfold main.
  destruct (in_products input_data) as [candidates|]; simpl; [|done].
  destruct (in_type input_data) as [t|]; simpl; [|done].
  destruct (String.eqb t "cold_start").
  { intros [= <-]. split.
    - intros e He. exists candidates. split; [done|].
      by apply cold_start_entry in He.
    - intros Hlimit. rewrite cold_start_unfold. by apply slice_to_length. }
  destruct (String.eqb t "personalized").
  - destruct (get_personalized_recommendations _ _ _) as [recs|] eqn:Hrecs; [|done].
    intros [= <-]. split.
    + intros e He. exists candidates. split; [done|].
      exact (personalized_entry _ _ _ _ _ Hrecs He).
    + intros Hlimit. by eapply personalized_at_most_limit.
  - intros [= <-]. split; [|simpl; lia].
    intros e He. by apply elem_of_nil in He.
Qed.

Lemma main_prints_input_products_witness :
  exists out,
    main Envelopes.personalized_request = Printed out
    /\ map (fun e => id (sp_product e)) out = [Some 1%Z; Some 4%Z; Some 3%Z]
    /\ (forall e, e ∈ out ->
          exists candidates,
            in_products Envelopes.personalized_request = Some candidates
            /\ sp_product e ∈ candidates /\ 0 < recommendation_score e)
    /\ (Z.of_nat (length out) <= 20)%Z.
Proof.
  eexists. split; [reflexivity|]. split; [reflexivity|].
  destruct (main_prints_input_products Envelopes.personalized_request _ eq_refl)
    as [Hsound Hlen].
  split; [exact Hsound|]. apply Hlen. simpl. lia.
Defined.

End EntryPoint.

(** ** Search *)

Section SearchRanking.
Import Storage Search.

Lemma map_exn_raises {A B} (f : A -> exn B) (l : list A) (e : exception) :
  map_exn f l = Raise e -> exists x, x ∈ l /\ f x = Raise e.
Proof.
  induction l as [|x l IH]; simpl; [done|].
  destruct (f x) as [y|e'] eqn:Hx; simpl.
  - destruct (map_exn f l) as [ys|e'']; simpl; [done|].
    intros [= <-]. destruct (IH eq_refl) as (x' & Hin & Hx').
    exists x'. split; [by apply list_elem_of_further|done].
  - intros [= <-]. exists x. split; [apply list_elem_of_here|done].
Qed.

Lemma map_exn_returns {A B} (f : A -> exn B) (l : list A) :
  (forall x, x ∈ l -> exists y, f x = Return y) ->
  exists ys, map_exn f l = Return ys.
Proof.
  induction l as [|x l IH]; intros Hall; simpl; [by eexists|].
  destruct (Hall x (list_elem_of_here _ _)) as [y ->]. simpl.
  destruct IH as [ys ->].
  { intros x' Hx'. apply Hall. by apply list_elem_of_further. }
  simpl. by eexists.
Qed.

Lemma eco_keys (products : list product) (keyed : list (product * Q)) :
  map_exn (fun x => try! eco := dict_index "eco_score" (eco_score x) in
                    Return (x, eco)) products = Return keyed ->
  length keyed = length products
  /\ forall x k, (x, k) ∈ keyed -> x ∈ products /\ eco_score x = Some k.
Proof.
  intros H%map_exn_Forall2. split; [symmetry; by eapply Forall2_length|].
  induction H as [|x [y ky] l l' Hxy _ IH]; intros z k Hz.
  - by apply elem_of_nil in Hz.
  - apply elem_of_cons in Hz as [[= -> ->]|Hz].
    + destruct (eco_score x) as [eco|] eqn:E; simpl in Hxy; [|done].
      injection Hxy as <- <-. split; [apply list_elem_of_here|done].
    + destruct (IH z k Hz). split; [by apply list_elem_of_further|done].
Qed.

(** Anonymous search (no user id, or the user id 0) is a pure eco-score
    sort: it returns the first [limit] search results in descending order
    of eco-score, unscored. *)
Theorem anonymous_search_by_eco_score
    (self : RecommendationEngine) (searchProducts : string -> Z -> list product)
    (query : string) (user_id : option Z) (limit : Z) (out : list search_hit) :
  anonymous user_id = true ->
  get_search_recommendations self searchProducts query user_id limit = Return out ->
  (forall h, h ∈ out ->
     hit_score h = None /\ hit_product h ∈ searchProducts query (limit * 2)%Z)
  /\ (forall i j a b ea eb,
        out !! i = Some a -> out !! j = Some b -> (i < j)%nat ->
        eco_score (hit_product a) = Some ea -> eco_score (hit_product b) = Some eb ->
        eb <= ea)
  /\ ((0 <= limit)%Z ->
      length out = Nat.min (Z.to_nat limit) (length (searchProducts query (limit * 2)%Z))).
Proof.
  intros Hanon. unfold get_search_recommendations. rewrite Hanon.
  destruct (map_exn _ _) as [keyed|] eqn:Hkeys; simpl; [|done].
  intros [= <-]. destruct (eco_keys _ _ Hkeys) as [Hlen Hkey].
  assert (forall x k n,
            Py.sort_reverse (fun x y : product * Q => Py.lt (snd x) (snd y)) keyed !! n
            = Some (x, k) -> (x, k) ∈ keyed) as Hin.
  { intros x k n Hn.
    rewrite <- (sort_reverse_perm (fun x y : product * Q => Py.lt (snd x) (snd y))).
    by eapply list_elem_of_lookup_2. }
  split; [|split].
  - intros h [n Hn%slice_to_lookup]%list_elem_of_lookup_1.
    change (map ?f ?l) with (f <$> l) in Hn.
    apply list_lookup_fmap_Some in Hn as ([x k] & -> & Hn). simpl.
    split; [done|]. by destruct (Hkey _ _ (Hin _ _ _ Hn)).
  - intros i j a b ea eb Hi%slice_to_lookup Hj%slice_to_lookup Hij Hea Heb.
    change (map ?f ?l) with (f <$> l) in Hi, Hj.
    apply list_lookup_fmap_Some in Hi as ([x kx] & -> & Hi).
    apply list_lookup_fmap_Some in Hj as ([y ky] & -> & Hj).
    simpl in Hea, Heb.
    destruct (Hkey _ _ (Hin _ _ _ Hi)) as [_ Hkx].
    destruct (Hkey _ _ (Hin _ _ _ Hj)) as [_ Hky].
    assert (kx = ea) as -> by congruence. assert (ky = eb) as -> by congruence.
    assert (StronglySorted (fun x y : product * Q => Py.lt (snd x) (snd y) = false)
              (Py.sort_reverse (fun x y => Py.lt (snd x) (snd y)) keyed)) as Hsorted.
    { apply (sort_reverse_sorted (fun x y : product * Q => Py.lt (snd x) (snd y))).
      - intros u v H. py_compare; try done; lra.
      - intros u v w H1 H2. py_compare; try done; lra. }
    pose proof (sorted_lookup _ _ i j _ _ Hsorted Hi Hj Hij) as H. simpl in H.
    py_compare; try done; lra.
  - intros Hlimit. unfold Py.slice_to. destruct (0 <=? limit)%Z eqn:E; [|lia].
    by rewrite length_take, length_map, sort_reverse_length, Hlen.
Qed.

(** Anonymous search raises exactly when a search result has no
    ['eco_score'], whatever the limit. *)
Theorem anonymous_search_raises_iff
    (self : RecommendationEngine) (searchProducts : string -> Z -> list product)
    (query : string) (user_id : option Z) (limit : Z) :
  anonymous user_id = true ->
  (exists x, x ∈ searchProducts query (limit * 2)%Z /\ eco_score x = None)
  <-> get_search_recommendations self searchProducts query user_id limit
      = Raise (KeyError "eco_score").
Proof.
  intros Hanon. unfold get_search_recommendations. rewrite Hanon.
  destruct (map_exn _ _) as [keyed|e] eqn:Hkeys; simpl.
  - split; [|done]. intros (x & Hx & Hnone).
    apply map_exn_Forall2 in Hkeys.
    apply list_elem_of_lookup_1 in Hx as [n Hn].
    destruct (Forall2_lookup_l _ _ _ _ _ Hkeys Hn) as (y & _ & Hy).
    by rewrite Hnone in Hy.
  - apply map_exn_raises in Hkeys as (x & Hx & Hraise).
    destruct (eco_score x) as [eco|] eqn:E; simpl in Hraise; [done|].
    injection Hraise as <-. split; [done|]. intros _. by exists x.
Qed.

Lemma anonymous_search_by_eco_score_witness :
  exists out,
    get_search_recommendations {| storage := Sample.store |} Envelopes.searchProducts
      "lamp" (Some 0%Z) 2 = Return out
    /\ map (fun h => id (hit_product h)) out = [Some 1%Z; Some 4%Z]
    /\ (forall h, h ∈ out ->
          hit_score h = None /\ hit_product h ∈ Envelopes.searchProducts "lamp" (2 * 2)%Z)
    /\ length out = 2%nat.
Proof.
  eexists. split; [reflexivity|]. split; [reflexivity|].
  destruct (anonymous_search_by_eco_score {| storage := Sample.store |}
              Envelopes.searchProducts "lamp" (Some 0%Z) 2 _ eq_refl eq_refl)
    as (Hhits & _ & Hlen).
  split; [exact Hhits|]. apply Hlen. lia.
Defined.

Lemma anonymous_search_raises_iff_witness :
  get_search_recommendations {| storage := Sample.store |}
    (fun _ _ => [Sample.row Sample.lamp; Sample.row Sample.mug]) "mug" None 0
  = Raise (KeyError "eco_score").
Proof.
  apply (anonymous_search_raises_iff {| storage := Sample.store |}
           (fun _ _ => [Sample.row Sample.lamp; Sample.row Sample.mug]) "mug" None 0 eq_refl).
  exists (Sample.row Sample.mug). split; [|reflexivity].
  apply list_elem_of_further, list_elem_of_here.
Defined.

Lemma search_loop
    (profile : preferences) (age : Z) (gender : string)
    (candidates : list product) (acc scored : list scored_product) :
  for_each (fun scored_products product =>
              try! score := _calculate_personalized_score product profile age gender in
              Return (scored_products ++ [ {| sp_product := product; recommendation_score := score |} ]))
           candidates acc = Return scored ->
  length scored = (length acc + length candidates)%nat
  /\ forall e, e ∈ scored ->
       e ∈ acc
       \/ (sp_product e ∈ candidates
           /\ _calculate_personalized_score (sp_product e) profile age gender
              = Return (recommendation_score e)).
Proof.
  revert acc. induction candidates as [|c cs IH]; intros acc; simpl.
  - intros [= ->]. split; [lia|]. intros e He. by left.
  - destruct (_calculate_personalized_score c profile age gender) as [s|] eqn:Hs;
      simpl; [|done].
    intros H. destruct (IH _ H) as [Hlen Hall]. split.
    + rewrite Hlen, length_app. simpl. lia.
    + intros e He. destruct (Hall e He) as [Hacc|[Hin Hscore]].
      * apply elem_of_app in Hacc as [?|Hnew]; [by left|].
        apply list_elem_of_singleton in Hnew as ->. right. simpl.
        split; [apply list_elem_of_here|done].
      * right. split; [by apply list_elem_of_further|done].
Qed.

Lemma search_loop_products
    (profile : preferences) (age : Z) (gender : string)
    (candidates : list product) (acc scored : list scored_product) :
  for_each (fun scored_products product =>
              try! score := _calculate_personalized_score product profile age gender in
              Return (scored_products ++ [ {| sp_product := product; recommendation_score := score |} ]))
           candidates acc = Return scored ->
  map sp_product scored = map sp_product acc ++ candidates.
Proof.
  revert acc. induction candidates as [|c cs IH]; intros acc; simpl.
  - intros [= ->]. by rewrite app_nil_r.
  - destruct (_calculate_personalized_score c profile age gender) as [s|]; simpl; [|done].
    intros H. rewrite (IH _ H), map_app. simpl. by rewrite <- app_assoc.
Qed.

Lemma keyed_entries {A K} (f : A -> exn (A * K)) (l : list A) (keyed : list (A * K)) :
  (forall x y, f x = Return y -> fst y = x) ->
  map_exn f l = Return keyed ->
  map fst keyed = l.
Proof.
  intros Hf H%map_exn_Forall2.
  induction H as [|x y l l' Hxy _ IH]; simpl; [done|].
  by rewrite (Hf x y Hxy), IH.
Qed.

(** Search for a known user drops nothing but the tail.  Every hit is a
    fetched search result and carries the personalised score of that
    product under the profile extracted from the user's activity; the
    result holds the first [limit] of all search results in ranked order,
    and when [limit] covers the search results each of them is a hit, the
    products of the cart and the wishlist and the products that score 0
    included. *)
Theorem personalised_search_keeps_all
    (self : RecommendationEngine) (searchProducts : string -> Z -> list product)
    (query : string) (user_id : option Z) (limit : Z) (u : user)
    (out : list search_hit) :
  anonymous user_id = false ->
  getUser (storage self) (dict_get user_id 0%Z) = Some u ->
  get_search_recommendations self searchProducts query user_id limit = Return out ->
  exists profile,
    _extract_user_preferences
      (getCartItems (storage self) (dict_get user_id 0%Z))
      (getWishlistItems (storage self) (dict_get user_id 0%Z))
      (getViewedProducts (storage self) (dict_get user_id 0%Z) 20) = Return profile
    /\ (forall h, h ∈ out ->
          hit_product h ∈ searchProducts query (limit * 2)%Z
          /\ exists s,
               hit_score h = Some s
               /\ _calculate_personalized_score (hit_product h) profile (age u) (gender u)
                  = Return s
               /\ 0 <= s)
    /\ ((0 <= limit)%Z ->
        length out
        = Nat.min (Z.to_nat limit) (length (searchProducts query (limit * 2)%Z)))
    /\ ((Z.of_nat (length (searchProducts query (limit * 2)%Z)) <= limit)%Z ->
        map hit_product out ≡ₚ searchProducts query (limit * 2)%Z).
Proof.
  intros Hanon Hu. unfold get_search_recommendations. rewrite Hanon, Hu.
  destruct (_extract_user_preferences _ _ _) as [profile|]; simpl; [|done].
  destruct (for_each _ _ _) as [scored|] eqn:Hloop; simpl; [|done].
  destruct (map_exn _ scored) as [keyed|] eqn:Hkeys; simpl; [|done].
  intros [= <-]. exists profile. split; [done|].
  pose proof (search_loop_products _ _ _ _ _ _ Hloop) as Hproducts.
  apply search_loop in Hloop as [Hlen Hall].
  assert (map fst keyed = scored) as Hfst.
  { refine (keyed_entries _ _ _ _ Hkeys). intros x y Hxy.
    destruct (eco_score (sp_product x)); simpl in Hxy; [|done].
    by injection Hxy as <-. }
  apply map_exn_Forall2 in Hkeys.
  assert (length (Py.sort_reverse
                    (fun x y : scored_product * (Q * Q) => tuple_lt (snd x) (snd y)) keyed)
          = length (searchProducts query (limit * 2)%Z)) as Hsize.
  { rewrite sort_reverse_length. apply Forall2_length in Hkeys.
    rewrite <- Hkeys, Hlen. done. }
  split; [|split].
  - intros h [n Hn%slice_to_lookup]%list_elem_of_lookup_1.
    change (map ?f ?l) with (f <$> l) in Hn.
    apply list_lookup_fmap_Some in Hn as ([x k] & -> & Hn). simpl.
    apply list_elem_of_lookup_2 in Hn.
    rewrite (sort_reverse_perm
               (fun x y : scored_product * (Q * Q) => tuple_lt (snd x) (snd y))) in Hn.
    apply list_elem_of_lookup_1 in Hn as [m Hm].
    destruct (Forall2_lookup_r _ _ _ _ _ Hkeys Hm) as (x' & Hx' & Hxk).
    destruct (eco_score (sp_product x')) as [eco|]; simpl in Hxk; [|done].
    injection Hxk as -> _.
    destruct (Hall x (list_elem_of_lookup_2 _ _ _ Hx')) as [Hnil|[Hin Hscore]].
    + by apply elem_of_nil in Hnil.
    + split; [done|]. exists (recommendation_score x). split; [done|].
      split; [done|]. eapply storage_scores_never_negative. right. exact Hscore.
  - intros Hlimit. unfold Py.slice_to. destruct (0 <=? limit)%Z eqn:E; [|lia].
    by rewrite length_take, length_map, Hsize.
  - intros Hcover. unfold Py.slice_to. destruct (0 <=? limit)%Z eqn:E; [|lia].
    rewrite take_ge by (rewrite length_map, Hsize; lia).
    rewrite map_map. cbn [hit_product].
    rewrite <- (map_map fst sp_product).
    rewrite (Permutation_map fst
               (sort_reverse_perm
                  (fun x y : scored_product * (Q * Q) => tuple_lt (snd x) (snd y)) keyed)).
    by rewrite Hfst, Hproducts.
Qed.

Lemma personalised_search_keeps_all_witness :
  exists out profile,
    get_search_recommendations {| storage := Sample.store |} Envelopes.searchProducts
      "lamp" (Some 7%Z) 5 = Return out
    /\ map (fun h => id (hit_product h)) out = [Some 4%Z; Some 1%Z; Some 2%Z]
    /\ _extract_user_preferences
         (getCartItems Sample.store 7) (getWishlistItems Sample.store 7)
         (getViewedProducts Sample.store 7 20) = Return profile
    /\ (forall h, h ∈ out ->
          hit_product h ∈ Envelopes.searchProducts "lamp" (5 * 2)%Z
          /\ exists s,
               hit_score h = Some s
               /\ _calculate_personalized_score (hit_product h) profile 30 "male" = Return s
               /\ 0 <= s)
    /\ map hit_product out ≡ₚ Envelopes.searchProducts "lamp" (5 * 2)%Z.
Proof.
  destruct (personalised_search_keeps_all {| storage := Sample.store |}
              Envelopes.searchProducts "lamp" (Some 7%Z) 5
              {| age := 30; gender := "male" |} _ eq_refl eq_refl eq_refl)
    as (profile & Hprofile & Hhits & _ & Hall).
  eexists _, profile. split; [reflexivity|]. split; [reflexivity|].
  split; [exact Hprofile|]. split; [exact Hhits|].
  apply Hall. vm_compute. discriminate.
Defined.

End SearchRanking.

(** ** Where the two engines agree *)

Section Agreement.
Import Service Rows.








Lemma rows_any_item (k : Z) (items : list activity_item) :
  Forall (fun item => exists q i, item_product item = Some q /\ id q = Some i) items ->
  Storage.any_item_is k (map row_item items)
  = Return (existsb (fun item => id_matches (id (dict_get (item_product item) empty_dict)) k)
                    items).
Proof.
  induction 1 as [|item items (q & i & Hq & Hi) _ IH]; simpl; [done|].
  rewrite Hq. simpl. rewrite Hi. simpl. destruct (i =? k)%Z; [done|]. exact IH.
Qed.

(** On items that wrap a product with an identifier, both engines give the
    same answer to "is this product in the cart or the wishlist". *)
Theorem engines_activity_test_alike (k : Z) (cart wish : list activity_item) :
  Forall (fun item => exists q i, item_product item = Some q /\ id q = Some i)
         (cart ++ wish) ->
  Storage._is_product_in_activity k (map row_item cart) (map row_item wish)
  = Return (_is_product_in_activity k cart wish).
Proof.
  intros [Hcart Hwish]%Forall_app.
  unfold Storage._is_product_in_activity, _is_product_in_activity.
  rewrite (rows_any_item k cart Hcart). simpl.
  destruct (existsb _ cart); [done|].
  rewrite (rows_any_item k wish Hwish). simpl.
  by destruct (existsb _ wish).
Qed.

Lemma engines_activity_test_alike_witness :
  Storage._is_product_in_activity 2
    (map row_item [ {| item_product := Some Sample.lamp |} ])
    (map row_item [ {| item_product := Some Sample.planter |} ])
  = Return (_is_product_in_activity 2 [ {| item_product := Some Sample.lamp |} ]
              [ {| item_product := Some Sample.planter |} ]).
Proof.
  apply engines_activity_test_alike.
  repeat constructor; eexists _, _; split; reflexivity.
Defined.

(** An item without product stops the storage-backed test with
    [KeyError('product')], unless a match was found before it. *)
Lemma storage_activity_test_raises :
  Storage._is_product_in_activity 2
    [ {| Storage.item_product := None |};
      {| Storage.item_product := Some (Sample.row Sample.planter) |} ] []
  = Raise (KeyError "product")
  /\ Storage._is_product_in_activity 2
       [ {| Storage.item_product := Some (Sample.row Sample.planter) |};
         {| Storage.item_product := None |} ] []
     = Return true.
Proof. split; reflexivity. Qed.


End Agreement.

(** ** Letter case *)

Section LetterCase.
Import Service Profile Case.

Lemma lower_idempotent (s : string) : Py.lower (Py.lower s) = Py.lower s.
Proof. apply lower_fixes_lower_case, lower_no_upper. Qed.

Lemma lower_of_lowered (field : option string) :
  Py.lower (dict_get (Py.lower <$> field) "") = Py.lower (dict_get field "").
Proof. destruct field as [s|]; simpl; [apply lower_idempotent|done]. Qed.

(** Matching ignores letter case: the demographic score of a product does
    not change when its category, title and text are put in lower case. *)
Theorem demographic_score_ignores_case (p : product) (age : Z) (gender : string) :
  _calculate_demographic_score (lowered p) age gender
  = _calculate_demographic_score p age gender.
Proof.
  unfold _calculate_demographic_score. cbn [lowered category title text ecoScore].
  by rewrite !lower_of_lowered.
Qed.

(** The category affinity does not: the profile is keyed by the category as
    written. *)
Lemma affinity_is_case_sensitive :
  let profile := _extract_user_preferences [] [] [Sample.planter] in
  let lower_case := lowered Sample.planter in
  _calculate_personalized_score Sample.planter profile 30 "female"
  == _calculate_personalized_score lower_case profile 30 "female" + 8.
Proof. vm_compute. reflexivity. Qed.

End LetterCase.

(** ** The storage-backed engine, for the record *)

Section StorageEngine.
Import Storage.

(** The personalised score of the storage-backed engine returns only for
    a row that has category, price, eco_score and text, and what it returns
    is not negative; a [KeyError] it raises names the first key the row
    lacks, in the order category, price, eco_score, text. *)
Theorem storage_score_and_missing_keys
    (p : product) (profile : preferences) (age : Z) (gender : string) :
  (forall v, _calculate_personalized_score p profile age gender = Return v ->
     is_Some (category p) /\ is_Some (price p) /\ is_Some (eco_score p)
     /\ is_Some (text p) /\ 0 <= v)
  /\ (forall key, _calculate_personalized_score p profile age gender = Raise (KeyError key) ->
        (key = "category" /\ category p = None)
        \/ (key = "price" /\ is_Some (category p) /\ price p = None)
        \/ (key = "eco_score" /\ is_Some (category p) /\ is_Some (price p)
            /\ eco_score p = None)
        \/ (key = "text" /\ is_Some (category p) /\ is_Some (price p)
            /\ is_Some (eco_score p) /\ text p = None)).
Proof.
  unfold _calculate_personalized_score.
  destruct (category p) as [c|] eqn:Hc.
  2: { rewrite (storage_missing_category_raises p age gender Hc). cbn [bind].
       split; [done|]. intros key [= <-]. by left. }
  destruct (storage_demographic_returns p age gender c Hc) as (d & -> & _).
  cbn [bind dict_index].
  destruct (price p) as [x|]; cbn [bind dict_index].
  2: { split; [done|]. intros key [= <-]. right. left. eauto. }
  destruct (eco_score p) as [e|]; cbn [bind dict_index].
  2: { split; [done|]. intros key [= <-]. right. right. left. eauto. }
  destruct (text p) as [t|]; cbn [bind dict_index].
  2: { split; [done|]. intros key [= <-]. right. right. right. eauto 10. }
  split; [|done]. intros v [= <-].
  repeat (split; [by eexists|]). apply max0_nonneg.
Qed.



(** Its cold-start ranking has at most [limit] entries, and at most as
    many as there are rows with a score above 0. *)
Theorem storage_cold_start_bounds
    (self : RecommendationEngine) (age : Z) (gender : string) (limit : Z)
    (out : list scored_product) :
  (0 <= limit)%Z ->
  get_cold_start_recommendations self age gender limit = Return out ->
  (Z.of_nat (length out) <= limit)%Z
  /\ (length out
      <= length (List.filter
                   (fun p => match _calculate_demographic_score p age gender with
                             | Return score => Py.lt 0 score
                             | Raise _ => false
                             end)
                   (getProducts (storage self) 100)))%nat.
Proof. apply storage_cold_start_length. Qed.

Lemma storage_cold_start_bounds_witness :
  exists out,
    get_cold_start_recommendations {| storage := Sample.store |} 30 "male" 2 = Return out
    /\ (Z.of_nat (length out) <= 2)%Z.
Proof.
  eexists. split; [reflexivity|].
  apply (storage_cold_start_bounds {| storage := Sample.store |} 30 "male" 2);
    [lia|reflexivity].
Defined.

(** In its cold-start ranking, of two entries with equal scores the one
    with the higher eco-score comes first. *)
Theorem storage_cold_start_ties
    (self : RecommendationEngine) (age : Z) (gender : string) (limit : Z)
    (out : list scored_product) (i j : nat) (a b : scored_product) (ea eb : Q) :
  get_cold_start_recommendations self age gender limit = Return out ->
  out !! i = Some a -> out !! j = Some b ->
  recommendation_score a == recommendation_score b ->
  eco_score (sp_product a) = Some ea ->
  eco_score (sp_product b) = Some eb ->
  eb < ea ->
  (i < j)%nat.
Proof. apply storage_cold_start_tie_break. Qed.

Lemma storage_cold_start_ties_witness :
  exists out,
    get_cold_start_recommendations {| storage := Ties.store |} 30 "male" 5 = Return out
    /\ map (fun e => id (sp_product e)) out = [Some 1%Z; Some 6%Z]
    /\ (0 < 1)%nat.
Proof.
  eexists. split; [reflexivity|]. split; [reflexivity|].
  eapply (storage_cold_start_ties {| storage := Ties.store |} 30 "male" 5 _ 0 1).
  - reflexivity.
  - reflexivity.
  - reflexivity.
  - vm_compute. reflexivity.
  - reflexivity.
  - reflexivity.
  - vm_compute. reflexivity.
Defined.

(** Its personalised ranking lists no identifier found in the cart or the
    wishlist of the user. *)
Theorem storage_ranking_excludes_activity
    (self : RecommendationEngine) (user_id limit : Z)
    (out : list scored_product) (item : activity_item)
    (q : product) (k : Z) (e : scored_product) :
  get_personalized_recommendations self user_id limit = Return out ->
  item ∈ getCartItems (storage self) user_id ++ getWishlistItems (storage self) user_id ->
  item_product item = Some q ->
  id q = Some k ->
  e ∈ out ->
  id (sp_product e) <> Some k.
Proof. apply storage_personalized_excludes_activity. Qed.

Lemma storage_ranking_excludes_activity_witness :
  exists out e,
    get_personalized_recommendations {| storage := Sample.store |} 7 5 = Return out
    /\ e ∈ out /\ id (sp_product e) <> Some 2%Z.
Proof.
  eexists _, _. split; [reflexivity|]. split; [apply list_elem_of_here|].
  eapply (storage_ranking_excludes_activity {| storage := Sample.store |} 7 5 _
            {| item_product := Some (Sample.row Sample.planter) |}
            (Sample.row Sample.planter) 2).
  - reflexivity.
  - apply list_elem_of_here.
  - reflexivity.
  - reflexivity.
  - apply list_elem_of_here.
Defined.

End StorageEngine.

(** ** A user without activity *)

Section NoActivity.
Import Service.

(** For a user without any activity the personalised score of a product
    priced between 0 and 1000 whose eco-score is not negative is what the
    code adds up in this order: the demographic score times 0.4, then 20 for
    the price, then 15 for the eco-score; nothing else is added. *)
Theorem no_activity_score (p : product) (age : Z) (gender : string) :
  0 <= Spec.price_of p -> Spec.price_of p <= 1000 -> 0 <= Spec.eco_score p ->
  _calculate_personalized_score p (_extract_user_preferences [] [] []) age gender
  == _calculate_demographic_score p age gender * 0.4 + 20 + 15.
Proof.
  unfold Spec.price_of, Spec.eco_score. intros Hlo Hhi He.
  assert (0 <= _calculate_demographic_score p age gender) as Hd
    by apply max0_nonneg.
  unfold _calculate_personalized_score.
  change (_extract_user_preferences [] [] []) with initial_preferences.
  cbn [preferred_categories price_range eco_score_threshold keywords
       initial_preferences pr_min pr_max List.filter length].
  rewrite lookup_empty.
  destruct (le_spec 0 (dict_get (price p) 0)); [|lra].
  destruct (le_spec (dict_get (price p) 0) 1000); [|lra].
  destruct (le_spec 0 (dict_get (ecoScore p) 0)); [|lra].
  cbn [andb]. change (inject_Z (Z.of_nat 0)) with 0.
  generalize dependent (_calculate_demographic_score p age gender). intros d Hd.
  unfold Py.max0. py_compare; lra.
Qed.

Lemma no_activity_score_witness :
  _calculate_personalized_score Sample.lamp (_extract_user_preferences [] [] []) 30 "female"
  == _calculate_demographic_score Sample.lamp 30 "female" * 0.4 + 20 + 15.
Proof. apply no_activity_score; vm_compute; discriminate. Defined.

End NoActivity.

(** ** Items without product in the storage-backed engine *)

Section StorageItems.
Import Storage.

Lemma items_without_product (items : list activity_item) :
  (exists item, item ∈ items /\ item_product item = None)
  -> map_exn (fun item => dict_index "product" (item_product item)) items
     = Raise (KeyError "product").
Proof.
  induction items as [|it items IH]; intros (item & Hin & Hnone).
  - by apply elem_of_nil in Hin.
  - simpl. destruct (item_product it) as [q|] eqn:Hq; simpl; [|done].
    apply elem_of_cons in Hin as [->|Hin]; [congruence|].
    rewrite IH; [done|]. by exists item.
Qed.

(** Where the stand-alone engine skips an item without product, the
    storage-backed extraction raises [KeyError('product')]. *)
Theorem storage_extract_needs_products
    (cart wish : list activity_item) (viewed : list product) :
  (exists item, item ∈ cart ++ wish /\ item_product item = None) ->
  _extract_user_preferences cart wish viewed = Raise (KeyError "product").
Proof.
  intros (item & Hin & Hnone). unfold _extract_user_preferences.
  destruct (map_exn _ cart) as [rows|e] eqn:Hcart.
  - cbn [bind]. rewrite items_without_product; [done|].
    apply elem_of_app in Hin as [Hin|Hin]; [|by exists item].
    rewrite items_without_product in Hcart; [done|by exists item].
  - cbn [bind]. apply map_exn_raises in Hcart as (it & _ & Hit).
    destruct (item_product it); simpl in Hit; [done|]. by injection Hit as <-.
Qed.

Lemma storage_extract_needs_products_witness :
  _extract_user_preferences
    [ {| item_product := Some (Sample.row Sample.lamp) |} ]
    [ {| item_product := None |} ] [Sample.row Sample.planter]
  = Raise (KeyError "product").
Proof.
  apply storage_extract_needs_products.
  exists {| item_product := None |}. split; [|reflexivity].
  apply list_elem_of_further, list_elem_of_here.
Defined.

End StorageItems.
